(** * aubo_controller/driver.py : trajectory follower and device connection

    A shallow embedding of the trajectory interpolator ([interp_cubic],
    [sample_traj]), the goal handling of [AUBOTrajectoryFollower]
    ([on_goal], [on_cancel], [_update]) and the read loop and state machine
    of [URConnection] ([__run], [__on_packet]).

    Conventions of the embedding.
    - A Python float that is finite is an exact rational ([Fin q]); the two
      infinities and NaN are separate constructors.  This arithmetic does
      not round and does not overflow: it serves the statements that
      compare, select and pass on values.  What the interpreter computes
      in binary64, with rounding, is the subject of [Binary64], the body
      of the interpolation loop on the kernel's binary64 floats.
    - A [rospy.Duration] is its total number of nanoseconds, an integer.
    - Wall-clock readings ([time.time()]) are rationals passed in by the
      caller of each entry point.
    - A Python exception is a value of [exn]; pure functions return
      [result], methods run in a monad that keeps the object state and the
      list of external effects when an exception is raised.
    - A global name that a function looks up and that the module neither
      defines nor imports raises [NameError] at the lookup. *)

From Stdlib Require Import ZArith NArith QArith Qfield Qabs.
From Stdlib Require Import List Bool String Ascii Lia.
From Stdlib Require Import Strings.Byte.
From Stdlib Require PrimFloat SpecFloat FloatOps FloatAxioms.
Import ListNotations.

Set Implicit Arguments.

(* ------------------------------------------------------------------ *)
(** ** Exceptions and fallible pure code *)

Inductive exn : Type :=
| IndexError
| ZeroDivisionError
| AttributeError
| ValueError
| StructError
| OverflowError
| NameError (name : string)
| SystemExit (code : Z).

Inductive result (A : Type) : Type :=
| Ok (a : A)
| Raise (e : exn).
Arguments Ok {A} a.
Arguments Raise {A} e.

Definition rbind {A B} (r : result A) (k : A -> result B) : result B :=
  match r with
  | Ok a => k a
  | Raise e => Raise e
  end.

Declare Scope result_scope.
Delimit Scope result_scope with result.
Notation "x <- c ;; k" := (rbind c (fun x => k))
  (at level 61, c at next level, right associativity) : result_scope.
Notation "' pat <- c ;; k" := (rbind c (fun x => match x with pat => k end))
  (at level 61, pat pattern, c at next level, right associativity) : result_scope.

(** [l[i]] for a non-negative index. *)
Definition getitem {A} (l : list A) (i : nat) : result A :=
  match nth_error l i with
  | Some a => Ok a
  | None => Raise IndexError
  end.

(** [l[-1]]. *)
Definition getlast {A} (l : list A) : result A :=
  match l with
  | [] => Raise IndexError
  | a :: l' => Ok (last l' a)
  end.

(** [l[i] = v] as a new list; Python raises out of range. *)
Fixpoint setitem {A} (l : list A) (i : nat) (v : A) : result (list A) :=
  match l, i with
  | [], _ => Raise IndexError
  | _ :: l', O => Ok (v :: l')
  | a :: l', S i' =>
      match setitem l' i' v with
      | Ok r => Ok (a :: r)
      | Raise e => Raise e
      end
  end.

(* ------------------------------------------------------------------ *)
(** ** Python floats *)

Module PyFloat.

Inductive pyfloat : Type :=
| Fin (q : Q)
| PInf
| NInf
| NaN.

Definition zero : pyfloat := Fin 0.

Definition isinf (x : pyfloat) : bool :=
  match x with PInf | NInf => true | _ => false end.

Definition isnan (x : pyfloat) : bool :=
  match x with NaN => true | _ => false end.

Definition is_finite (x : pyfloat) : bool :=
  match x with Fin _ => true | _ => false end.

Definition Qlt_bool (a b : Q) : bool := negb (Qle_bool b a).

Definition fneg (x : pyfloat) : pyfloat :=
  match x with
  | Fin q => Fin (- q)
  | PInf => NInf
  | NInf => PInf
  | NaN => NaN
  end.

Definition fadd (x y : pyfloat) : pyfloat :=
  match x, y with
  | NaN, _ | _, NaN => NaN
  | Fin a, Fin b => Fin (a + b)
  | PInf, NInf | NInf, PInf => NaN
  | PInf, _ | _, PInf => PInf
  | NInf, _ | _, NInf => NInf
  end.

Definition fsub (x y : pyfloat) : pyfloat := fadd x (fneg y).

(** Sign of a finite factor decides the product with an infinity;
    [0 * inf] is NaN. *)
Definition inf_times (pos : bool) (q : Q) : pyfloat :=
  if Qeq_bool q 0 then NaN
  else if Qlt_bool 0 q then (if pos then PInf else NInf)
  else (if pos then NInf else PInf).

Definition fmul (x y : pyfloat) : pyfloat :=
  match x, y with
  | NaN, _ | _, NaN => NaN
  | Fin a, Fin b => Fin (a * b)
  | Fin a, PInf | PInf, Fin a => inf_times true a
  | Fin a, NInf | NInf, Fin a => inf_times false a
  | PInf, PInf | NInf, NInf => PInf
  | PInf, NInf | NInf, PInf => NInf
  end.

(** [x / y]: Python raises [ZeroDivisionError] on a zero divisor, whatever
    the dividend. *)
Definition fdiv (x y : pyfloat) : result pyfloat :=
  match y with
  | Fin b =>
      if Qeq_bool b 0 then Raise ZeroDivisionError
      else match x with
           | Fin a => Ok (Fin (a / b))
           | PInf => Ok (if Qlt_bool 0 b then PInf else NInf)
           | NInf => Ok (if Qlt_bool 0 b then NInf else PInf)
           | NaN => Ok NaN
           end
  | NaN => Ok NaN
  | PInf | NInf =>
      match x with
      | Fin _ => Ok (Fin 0)
      | _ => Ok NaN
      end
  end.

Definition fabs (x : pyfloat) : pyfloat :=
  match x with
  | Fin q => Fin (Qabs q)
  | PInf | NInf => PInf
  | NaN => NaN
  end.

(** [x > y]; any comparison with NaN is false. *)
Definition fgt (x y : pyfloat) : bool :=
  match x, y with
  | NaN, _ | _, NaN => false
  | Fin a, Fin b => Qlt_bool b a
  | PInf, PInf => false
  | PInf, _ => true
  | _, PInf => false
  | NInf, _ => false
  | Fin _, NInf => true
  end.

(** Numeric equality of floats: the same number, or the same special
    value. *)
Definition feq (x y : pyfloat) : Prop :=
  match x, y with
  | Fin a, Fin b => a == b
  | PInf, PInf | NInf, NInf | NaN, NaN => True
  | _, _ => False
  end.

End PyFloat.
Import PyFloat.

Declare Scope pyfloat_scope.
Delimit Scope pyfloat_scope with F.
Infix "+" := fadd : pyfloat_scope.
Infix "-" := fsub : pyfloat_scope.
Infix "*" := fmul : pyfloat_scope.

(* ------------------------------------------------------------------ *)
(** ** rospy.Duration *)

(** Total nanoseconds. *)
Definition Duration : Type := Z.
Bind Scope Z_scope with Duration.

Definition NSEC_PER_SEC : positive := 1000000000.

(** [d.to_sec()] *)
Definition to_sec (d : Duration) : Q := Qmake d NSEC_PER_SEC.

(** [rospy.Duration(x)] for a float [x]: seconds and the nanosecond part are
    both truncated towards zero. *)
Definition Duration_of_sec (x : Q) : Duration :=
  Z.quot (Qnum x * Zpos NSEC_PER_SEC) (Zpos (Qden x)).

(* ------------------------------------------------------------------ *)
(** ** Messages *)

(** trajectory_msgs/JointTrajectoryPoint *)
Record JointTrajectoryPoint : Type := mkPoint {
  positions : list pyfloat;
  velocities : list pyfloat;
  accelerations : list pyfloat;
  effort : list pyfloat;
  time_from_start : Duration
}.

(** trajectory_msgs/JointTrajectory (the header is not used). *)
Record JointTrajectory : Type := mkTraj {
  joint_names : list string;
  points : list JointTrajectoryPoint
}.

Definition set_time_from_start (p : JointTrajectoryPoint) (d : Duration)
  : JointTrajectoryPoint :=
  mkPoint (positions p) (velocities p) (accelerations p) (effort p) d.

Definition set_velocities (p : JointTrajectoryPoint) (v : list pyfloat)
  : JointTrajectoryPoint :=
  mkPoint (positions p) v (accelerations p) (effort p) (time_from_start p).

Definition set_accelerations (p : JointTrajectoryPoint) (a : list pyfloat)
  : JointTrajectoryPoint :=
  mkPoint (positions p) (velocities p) a (effort p) (time_from_start p).

(** [[0] * 6] *)
Definition zeros6 : list pyfloat := repeat zero 6.

(* ------------------------------------------------------------------ *)
(** ** Trajectory interpolator *)

Section Interp.

Local Open Scope result_scope.

(** Body of the [for i in range(len(p0.positions))] loop of [interp_cubic],
    for one index; [acc] is [(q, qdot, qddot)].  The arithmetic is the
    exact one of [Fin]: no rounding, and no [OverflowError] out of [**].
    [Binary64.cubic_joint] below is the same body in binary64. *)
Definition interp_joint (p0 p1 : JointTrajectoryPoint) (T t : Q)
  (acc : list pyfloat * list pyfloat * list pyfloat) (i : nat)
  : result (list pyfloat * list pyfloat * list pyfloat) :=
  let '(q, qdot, qddot) := acc in
  a <- getitem (positions p0) i ;;
  b <- getitem (velocities p0) i ;;
  p1_pos <- getitem (positions p1) i ;;
  p1_vel <- getitem (velocities p1) i ;;
  c <- fdiv (Fin (-3) * a + Fin 3 * p1_pos - Fin (2 * T) * b - Fin T * p1_vel)%F
            (Fin (T ^ 2)) ;;
  d <- fdiv (Fin 2 * a - Fin 2 * p1_pos + Fin T * b + Fin T * p1_vel)%F
            (Fin (T ^ 3)) ;;
  q' <- setitem q i (a + b * Fin t + c * Fin (t ^ 2) + d * Fin (t ^ 3))%F ;;
  qdot' <- setitem qdot i (b + Fin 2 * c * Fin t + Fin 3 * d * Fin (t ^ 2))%F ;;
  qddot' <- setitem qddot i (Fin 2 * c + Fin 6 * d * Fin t)%F ;;
  Ok (q', qdot', qddot').

Fixpoint interp_loop (p0 p1 : JointTrajectoryPoint) (T t : Q) (idxs : list nat)
  (acc : list pyfloat * list pyfloat * list pyfloat)
  : result (list pyfloat * list pyfloat * list pyfloat) :=
  match idxs with
  | [] => Ok acc
  | i :: idxs' =>
      acc' <- interp_joint p0 p1 T t acc i ;;
      interp_loop p0 p1 T t idxs' acc'
  end.

Definition interp_cubic (p0 p1 : JointTrajectoryPoint) (t_abs : Q)
  : result JointTrajectoryPoint :=
  let T := to_sec (time_from_start p1 - time_from_start p0)%Z in
  let t := (t_abs - to_sec (time_from_start p0))%Q in
  '(q, qdot, qddot) <-
     interp_loop p0 p1 T t (seq 0 (List.length (positions p0)))
                 (zeros6, zeros6, zeros6) ;;
  Ok (mkPoint q qdot qddot [] (Duration_of_sec t_abs)).

(** The [while traj.points[i+1].time_from_start.to_sec() < t: i += 1] loop
    of [sample_traj], followed by the call of [interp_cubic] on
    [points[i]] and [points[i+1]].  The argument is the suffix
    [traj.points[i:]]. *)
Fixpoint find_segment (pts : list JointTrajectoryPoint) (t : Q)
  : result (JointTrajectoryPoint * JointTrajectoryPoint) :=
  match pts with
  | p0 :: ((p1 :: _) as rest) =>
      if Qlt_bool (to_sec (time_from_start p1)) t
      then find_segment rest t
      else Ok (p0, p1)
  | _ => Raise IndexError
  end.

(** [copy.deepcopy] of a message is the same value. *)
Definition sample_traj (traj : JointTrajectory) (t : Q)
  : result JointTrajectoryPoint :=
  if Qle_bool t 0 then getitem (points traj) 0
  else
    lastp <- getlast (points traj) ;;
    if Qle_bool (to_sec (time_from_start lastp)) t then getlast (points traj)
    else
      '(p0, p1) <- find_segment (points traj) t ;;
      interp_cubic p0 p1 t.

End Interp.

(* ------------------------------------------------------------------ *)
(** ** The interpolation loop in binary64 *)

Module Binary64.
Import PrimFloat.

Local Open Scope float_scope.
Local Open Scope result_scope.






Section Cubic.

(** [x ** n] for a float [x] and [n] = 2, 3 calls the C library's [pow],
    and Python raises [OverflowError] when the result is out of range.
    How [pow] rounds is the library's matter: it is a parameter. *)
Variable pypow : float -> Z -> result float.


End Cubic.


#[local] Set Warnings "-inexact-float".


#[local] Set Warnings "inexact-float".

End Binary64.

(* ------------------------------------------------------------------ *)
(** ** Goal validation *)

Local Open Scope string_scope.
Local Open Scope list_scope.

Definition JOINT_NAMES : list string :=
  ["shoulder_joint"; "upperArm_joint"; "foreArm_joint";
   "wrist1_joint"; "wrist2_joint"; "wrist3_joint"].

(** [MAX_VELOCITY = 10.0], the default of the [~max_velocity] parameter. *)
Definition MAX_VELOCITY : pyfloat := Fin 10.

Definition traj_is_finite (traj : JointTrajectory) : bool :=
  forallb (fun pt =>
             forallb (fun p => negb (isinf p || isnan p)) (positions pt)
             && forallb (fun v => negb (isinf v || isnan v)) (velocities pt))
          (points traj).

Definition has_limited_velocities (max_velocity : pyfloat)
  (traj : JointTrajectory) : bool :=
  forallb (fun p =>
             forallb (fun v => negb (fgt (fabs v) max_velocity)) (velocities p))
          (points traj).

Definition has_velocities (traj : JointTrajectory) : bool :=
  forallb (fun p =>
             Nat.eqb (List.length (velocities p)) (List.length (positions p)))
          (points traj).

(** [zip] stops at the shortest of the three vectors. *)
Fixpoint within_tolerance (a_vec b_vec tol_vec : list pyfloat) : bool :=
  match a_vec, b_vec, tol_vec with
  | a :: a', b :: b', tol :: tol' =>
      if fgt (fabs (a - b)%F) tol then false
      else within_tolerance a' b' tol'
  | _, _, _ => true
  end.

(** [set(xs) != set(ys)] on lists of names. *)
Definition mem_string (x : string) (l : list string) : bool :=
  existsb (String.eqb x) l.

Definition same_name_set (xs ys : list string) : bool :=
  forallb (fun x => mem_string x ys) xs
  && forallb (fun y => mem_string y xs) ys.

(** [l.index(x)]: the first position of [x], [ValueError] when absent. *)
Fixpoint index_of (l : list string) (x : string) : result nat :=
  match l with
  | [] => Raise ValueError
  | y :: l' =>
      if String.eqb y x then Ok O
      else match index_of l' x with
           | Ok n => Ok (S n)
           | Raise e => Raise e
           end
  end.

(** A list comprehension whose element expression may raise. *)
Fixpoint mapR {A B} (f : A -> result B) (l : list A) : result (list B) :=
  match l with
  | [] => Ok []
  | a :: l' =>
      match f a with
      | Ok b =>
          match mapR f l' with
          | Ok bs => Ok (b :: bs)
          | Raise e => Raise e
          end
      | Raise e => Raise e
      end
  end.

Definition is_empty {A} (l : list A) : bool :=
  match l with [] => true | _ => false end.

Definition reorder_point (order : list nat) (p : JointTrajectoryPoint)
  : result JointTrajectoryPoint :=
  (pos <- mapR (getitem (positions p)) order ;;
   vel <- (if is_empty (velocities p) then Ok []
           else mapR (getitem (velocities p)) order) ;;
   acc <- (if is_empty (accelerations p) then Ok []
           else mapR (getitem (accelerations p)) order) ;;
   Ok (mkPoint pos vel acc [] (time_from_start p)))%result.

(** The trajectory object after the destructive reordering. *)
Definition reorder_traj_joints (traj : JointTrajectory) (names : list string)
  : result JointTrajectory :=
  (order <- mapR (index_of (joint_names traj)) names ;;
   new_points <- mapR (reorder_point order) (points traj) ;;
   Ok (mkTraj names new_points))%result.

(* ------------------------------------------------------------------ *)
(** ** Methods: object state, external effects, exceptions *)

Inductive outcome (A : Type) : Type :=
| Normal (a : A)
| Raised (e : exn).
Arguments Normal {A} a.
Arguments Raised {A} e.

Section Method.

Variables St Eff : Type.

(** A method body: from the object state to its outcome, the state it
    leaves behind (also when it raises) and the effects it performed, in
    order. *)
Definition M (A : Type) : Type := St -> outcome A * St * list Eff.

Definition ret {A} (a : A) : M A := fun s => (Normal a, s, []).

Definition bind {A B} (m : M A) (k : A -> M B) : M B :=
  fun s =>
    match m s with
    | (Normal a, s1, e1) =>
        let '(o, s2, e2) := k a s1 in (o, s2, e1 ++ e2)
    | (Raised x, s1, e1) => (Raised x, s1, e1)
    end.

Definition get : M St := fun s => (Normal s, s, []).
Definition put (s : St) : M unit := fun _ => (Normal tt, s, []).
Definition tell (e : Eff) : M unit := fun s => (Normal tt, s, [e]).
Definition raise {A} (x : exn) : M A := fun s => (Raised x, s, []).

Definition lift {A} (r : result A) : M A :=
  match r with
  | Ok a => ret a
  | Raise x => raise x
  end.

(** The three parts of a finished call. *)
Definition outcome_of {A} (r : outcome A * St * list Eff) : outcome A :=
  fst (fst r).
Definition state_of {A} (r : outcome A * St * list Eff) : St :=
  snd (fst r).
Definition effects_of {A} (r : outcome A * St * list Eff) : list Eff :=
  snd r.

End Method.

Arguments ret {St Eff A} a.
Arguments bind {St Eff A B} m k.
Arguments get {St Eff}.
Arguments put {St Eff} s.
Arguments tell {St Eff} e.
Arguments raise {St Eff A} x.
Arguments lift {St Eff A} r.
Arguments outcome_of {St Eff A} r.
Arguments state_of {St Eff A} r.
Arguments effects_of {St Eff A} r.

Declare Scope method_scope.
Delimit Scope method_scope with M.
Notation "x <- c ;; k" := (bind c (fun x => k))
  (at level 61, c at next level, right associativity) : method_scope.
Notation "c ;; k" := (bind c (fun _ => k))
  (at level 61, right associativity) : method_scope.

(* ------------------------------------------------------------------ *)
(** ** AUBOTrajectoryFollower *)

Module Follower.

(** What [self.robot.get_joint_states()] answers for a bound robot. *)
Record Robot : Type := mkRobot {
  joint_states_position : list pyfloat;
  joint_states_velocity : list pyfloat
}.

(** An actionlib goal handle: the goal id that [==] compares, and the
    trajectory object of its goal. *)
Record GoalHandle : Type := mkGoalHandle {
  goal_id : nat;
  goal_trajectory : JointTrajectory
}.

Inductive Effect : Type :=
| Log (msg : string)
| LogErr (msg : string)
| LogWarn (msg : string)
| SetRejected (goal : nat) (text : string)
| SetAccepted (goal : nat)
| SetCanceled (goal : nat)
| SetSucceeded (goal : nat)
| PublishJointState (name : list string)
    (position velocity effort_ : list pyfloat)
| PrintLine (nsecs : Z) (position : list pyfloat)
| SendServoj (waypoint_id : Z) (q : list pyfloat) (t : Q).

Record State : Type := mkState {
  robot : option Robot;
  goal_handle : option GoalHandle;
  traj : option JointTrajectory;
  traj_t0 : Q;
  first_waypoint_id : Z;
  last_point_sent : bool;
  joint_goal_tolerances : list pyfloat
}.

Definition RATE : Q := 5 # 1000.
Definition STOP_DURATION : Q := 1 # 2.

Definition with_goal_handle (s : State) (g : option GoalHandle) : State :=
  mkState (robot s) g (traj s) (traj_t0 s) (first_waypoint_id s)
          (last_point_sent s) (joint_goal_tolerances s).

Definition with_traj (s : State) (t : option JointTrajectory) : State :=
  mkState (robot s) (goal_handle s) t (traj_t0 s) (first_waypoint_id s)
          (last_point_sent s) (joint_goal_tolerances s).

Definition with_traj_t0 (s : State) (t0 : Q) : State :=
  mkState (robot s) (goal_handle s) (traj s) t0 (first_waypoint_id s)
          (last_point_sent s) (joint_goal_tolerances s).

Definition with_first_waypoint_id (s : State) (n : Z) : State :=
  mkState (robot s) (goal_handle s) (traj s) (traj_t0 s) n
          (last_point_sent s) (joint_goal_tolerances s).

Definition with_last_point_sent (s : State) (b : bool) : State :=
  mkState (robot s) (goal_handle s) (traj s) (traj_t0 s)
          (first_waypoint_id s) b (joint_goal_tolerances s).

Definition with_robot (s : State) (r : option Robot) : State :=
  mkState r (goal_handle s) (traj s) (traj_t0 s) (first_waypoint_id s)
          (last_point_sent s) (joint_goal_tolerances s).

Definition Meth : Type -> Type := M State Effect.

Definition modify (f : State -> State) : Meth unit :=
  fun s => (Normal tt, f s, []).

(** [sample_traj(self.traj, t)]: with [self.traj] unset the first access to
    [traj.points] raises. *)
Definition sample_active (tr : option JointTrajectory) (t : Q)
  : result JointTrajectoryPoint :=
  match tr with
  | Some tr => sample_traj tr t
  | None => Raise AttributeError
  end.

(** Attribute access by name on a [JointTrajectoryPoint], for the slots
    that hold a list of floats: [positions], [velocities], [accelerations]
    and [effort].  The only other slot of the message is [time_from_start];
    a name that is no slot raises. *)
Definition getattr_point (p : JointTrajectoryPoint) (name : string)
  : result (list pyfloat) :=
  if String.eqb name "positions" then Ok (positions p)
  else if String.eqb name "velocities" then Ok (velocities p)
  else if String.eqb name "accelerations" then Ok (accelerations p)
  else if String.eqb name "effort" then Ok (effort p)
  else Raise AttributeError.

(** [self.robot.send_servoj(...)]; on [None] the attribute lookup raises,
    which [except socket.error] does not catch. *)
Definition send_servoj (r : option Robot) (waypoint_id : Z)
  (q : list pyfloat) (t : Q) : Meth unit :=
  match r with
  | None => raise AttributeError
  | Some _ => tell (SendServoj waypoint_id q t)
  end.

(** [self.robot.get_joint_states()] *)
Definition get_joint_states (r : option Robot) : Meth Robot :=
  match r with
  | None => raise AttributeError
  | Some rb => ret rb
  end.

Section Methods.

(** The global [max_velocity], read from the parameter server by [main]. *)
Variable max_velocity : pyfloat.

Local Open Scope method_scope.

Definition init_traj_from_robot (now : Q) : Meth unit :=
  modify (fun s =>
    with_traj (with_traj_t0 s now)
      (Some (mkTraj JOINT_NAMES
               [mkPoint zeros6 zeros6 zeros6 [] (Duration_of_sec 0)]))).

Definition set_robot (r : option Robot) (now : Q) : Meth unit :=
  self <- get ;;
  match goal_handle self with
  | Some g =>
      tell (SetCanceled (goal_id g)) ;;
      modify (fun s => with_goal_handle s None)
  | None => ret tt
  end ;;
  modify (fun s => with_robot (with_traj s None) r) ;;
  match r with
  | Some _ => init_traj_from_robot now
  | None => ret tt
  end.

Definition on_goal (gh : GoalHandle) (now : Q) : Meth unit :=
  tell (Log "on_goal") ;;
  self <- get ;;
  match robot self with
  | Some _ =>
      tell (LogErr "Received a goal, but the robot is not connected") ;;
      tell (SetRejected (goal_id gh) "")
  | None =>
  if negb (same_name_set (joint_names (goal_trajectory gh)) JOINT_NAMES) then
    tell (LogErr "Received a goal with incorrect joint names") ;;
    tell (SetRejected (goal_id gh) "")
  else if negb (traj_is_finite (goal_trajectory gh)) then
    tell (LogErr "Received a goal with infinites or NaNs") ;;
    tell (SetRejected (goal_id gh) "Received a goal with infinites or NaNs")
  else if negb (has_velocities (goal_trajectory gh)) then
    tell (LogErr "Received a goal without velocities") ;;
    tell (SetRejected (goal_id gh) "Received a goal without velocities")
  else if negb (has_limited_velocities max_velocity (goal_trajectory gh)) then
    tell (LogErr "Received a goal with velocities that are higher than max_velocity") ;;
    tell (SetRejected (goal_id gh)
            "Received a goal with velocities that are higher than max_velocity")
  else
    goal_traj <- lift (reorder_traj_joints (goal_trajectory gh) JOINT_NAMES) ;;
    (* with self.following_lock: *)
    match goal_handle self with
    | Some old =>
        tell (SetCanceled (goal_id old)) ;;
        modify (fun s =>
          with_goal_handle
            (with_first_waypoint_id s
               (first_waypoint_id s
                + Z.of_nat (List.length (points (goal_trajectory old)))))
            None)
    | None => ret tt
    end ;;
    self <- get ;;
    point0 <- lift (sample_active (traj self) (now - traj_t0 self)) ;;
    let point0 := set_time_from_start point0 (Duration_of_sec 0) in
    let goal_traj :=
      mkTraj (joint_names goal_traj) (point0 :: points goal_traj) in
    modify (fun s => with_traj_t0 s now) ;;
    modify (fun s =>
      with_goal_handle s (Some (mkGoalHandle (goal_id gh) goal_traj))) ;;
    modify (fun s => with_traj s (Some goal_traj)) ;;
    tell (SetAccepted (goal_id gh))
  end.

(** [goal_handle == self.goal_handle]: handles are equal when they carry
    the same goal id; no handle equals [None]. *)
Definition same_handle (gh : GoalHandle) (cur : option GoalHandle) : bool :=
  match cur with
  | Some g => Nat.eqb (goal_id gh) (goal_id g)
  | None => false
  end.

Definition on_cancel (gh : GoalHandle) (now : Q) : Meth unit :=
  tell (Log "on_cancel") ;;
  self <- get ;;
  if same_handle gh (goal_handle self) then
    (* with self.following_lock: *)
    point0 <- lift (sample_active (traj self) (now - traj_t0 self)) ;;
    let point0 := set_time_from_start point0 (Duration_of_sec 0) in
    point1 <- lift (sample_active (traj self)
                      (now - traj_t0 self + STOP_DURATION)) ;;
    let point1 := set_velocities point1 zeros6 in
    let point1 := set_accelerations point1 zeros6 in
    let point1 := set_time_from_start point1 (Duration_of_sec STOP_DURATION) in
    modify (fun s => with_traj_t0 s now) ;;
    modify (fun s => with_traj s (Some (mkTraj JOINT_NAMES [point0; point1]))) ;;
    match goal_handle self with
    | Some g => tell (SetCanceled (goal_id g))
    | None => raise AttributeError
    end ;;
    modify (fun s => with_goal_handle s None)
  else
    tell (SetCanceled (goal_id gh)).

(** The nanosecond field of a canonical duration. *)
Definition nsecs (d : Duration) : Z := Z.modulo d (Zpos NSEC_PER_SEC).

Definition _update (now : Q) : Meth unit :=
  self <- get ;;
  match robot self, traj self with
  | None, Some tr =>
      lastp <- lift (getlast (points tr)) ;;
      if Qle_bool (now - traj_t0 self) (to_sec (time_from_start lastp)) then
        modify (fun s => with_last_point_sent s false) ;;
        setpoint <- lift (sample_traj tr (now - traj_t0 self)) ;;
        tell (PublishJointState JOINT_NAMES (positions setpoint)
                (velocities setpoint) (effort setpoint)) ;;
        tell (PrintLine (nsecs (time_from_start setpoint)) (positions setpoint))
      else if negb (last_point_sent self) then
        last_point <- lift (getlast (points tr)) ;;
        let state := last_point in
        state_position <- lift (getattr_point state "position") ;;
        let position_in_tol :=
          within_tolerance state_position (positions last_point)
                           (joint_goal_tolerances self) in
        (if negb position_in_tol then
           tell (LogWarn "Trajectory time exceeded and current robot state not at goal, last point required") ;;
           tell (LogWarn "Current trajectory time, last point time") ;;
           _ <- lift (getattr_point state "position") ;;
           _ <- lift (getattr_point state "velocity") ;;
           tell (LogWarn "Desired, actual, velocity")
         else ret tt) ;;
        lastp' <- lift (getlast (points tr)) ;;
        setpoint <- lift (sample_traj tr (to_sec (time_from_start lastp'))) ;;
        send_servoj (robot self) 999 (positions setpoint) (4 * RATE) ;;
        modify (fun s => with_last_point_sent s true)
      else
        match goal_handle self with
        | Some g =>
            last_point <- lift (getlast (points tr)) ;;
            state <- get_joint_states (robot self) ;;
            let position_in_tol :=
              within_tolerance (joint_states_position state)
                (positions last_point) (repeat (Fin (1 # 10)) 6) in
            let velocity_in_tol :=
              within_tolerance (joint_states_velocity state)
                (velocities last_point) (repeat (Fin (5 # 100)) 6) in
            if position_in_tol && velocity_in_tol then
              tell (SetSucceeded (goal_id g)) ;;
              modify (fun s => with_goal_handle s None)
            else ret tt
        | None => ret tt
        end
  | _, _ => ret tt
  end.

End Methods.

(** The follower as [__init__] leaves it. *)
Definition init (r : option Robot) : State :=
  mkState r None None 0 10 true (repeat (Fin (5 # 100)) 6).

End Follower.

(* ------------------------------------------------------------------ *)
(** ** URConnection *)

Module Connection.

Inductive ConnState : Type :=
| DISCONNECTED
| CONNECTED
| READY_TO_PROGRAM
| EXECUTING.

(** The fields of a decoded robot state that [__on_packet] reads. *)
Record RobotModeData : Type := mkRobotModeData {
  real_robot_enabled : bool;
  robot_mode : Z
}.

Record MasterboardData : Type := mkMasterboardData {
  digital_input_bits : Z;
  digital_output_bits : Z;
  analog_input0 : Q;
  analog_input1 : Q;
  analog_output0 : Q;
  analog_output1 : Q
}.

Record RobotState : Type := mkRobotState {
  robot_mode_data : RobotModeData;
  masterboard_data : MasterboardData;
  unknown_ptypes : list Z
}.

(** ur_msgs/IOStates, with pins as [(pin, state)] pairs. *)
Record IOStates : Type := mkIOStates {
  digital_in_states : list (Z * Z);
  digital_out_states : list (Z * Z);
  analog_in_states : list (Z * Q);
  analog_out_states : list (Z * Q)
}.

Inductive Effect : Type :=
| Log (msg : string)
| LogInfo (msg : string)
| LogFatal (msg : string)
| LogWarnUnknown (ptypes : list Z)
| Sleep (seconds : Q)
| PublishIO (msg : IOStates).

Record State : Type := mkState {
  buf : list byte;
  robot_state : ConnState;
  last_state : option RobotState;
  keep_running : bool;
  last_hit : option Q
}.

Definition with_buf (s : State) (b : list byte) : State :=
  mkState b (robot_state s) (last_state s) (keep_running s) (last_hit s).

Definition with_robot_state (s : State) (r : ConnState) : State :=
  mkState (buf s) r (last_state s) (keep_running s) (last_hit s).

Definition with_last_state (s : State) (l : option RobotState) : State :=
  mkState (buf s) (robot_state s) l (keep_running s) (last_hit s).

Definition with_keep_running (s : State) (k : bool) : State :=
  mkState (buf s) (robot_state s) (last_state s) k (last_hit s).

Definition with_last_hit (s : State) (h : option Q) : State :=
  mkState (buf s) (robot_state s) (last_state s) (keep_running s) h.

Definition Meth : Type -> Type := M State Effect.

Definition modify (f : State -> State) : Meth unit :=
  fun s => (Normal tt, f s, []).

(** [struct.unpack_from("!IB", buf)]: an unsigned 32-bit big-endian length
    and one type byte; fewer than five bytes is a [struct.error]. *)
Definition unpack_IB (b : list byte) : result (N * N) :=
  match b with
  | b0 :: b1 :: b2 :: b3 :: b4 :: _ =>
      Ok ((((Byte.to_N b0 * 256 + Byte.to_N b1) * 256
            + Byte.to_N b2) * 256 + Byte.to_N b3)%N,
          Byte.to_N b4)
  | _ => Raise StructError
  end.

(** One turn of the [while len(self.__buf) >= 48] loop up to the call of
    [__on_packet]: [Some (packet, rest)] when a packet is cut off the
    buffer, [None] when the loop is left. *)
Definition try_extract (b : list byte)
  : result (option (list byte * list byte)) :=
  if (48 <=? List.length b)%nat then
    ('(packet_length, ptype) <- unpack_IB b ;;
     if (packet_length <=? N.of_nat (List.length b))%N then
       Ok (Some (firstn (N.to_nat packet_length) b,
                 skipn (N.to_nat packet_length) b))
     else Ok None)%result
  else Ok None.

Fixpoint insert_sorted (x : Z) (l : list Z) : list Z :=
  match l with
  | [] => [x]
  | y :: l' => if (x <=? y)%Z then x :: l else y :: insert_sorted x l'
  end.

Definition sort (l : list Z) : list Z := fold_right insert_sorted [] l.

(** [x / y] with Python's check of the divisor. *)
Definition checked_div (x y : Q) : result Q :=
  if Qeq_bool y 0 then Raise ZeroDivisionError else Ok (x / y).

Definition bit_of (bits i : Z) : Z :=
  Z.shiftr (Z.land bits (Z.shiftl 1 i)) i.

Definition range10 : list Z := [0; 1; 2; 3; 4; 5; 6; 7; 8; 9]%Z.

(** The global names that [__on_packet] looks up besides the imported
    modules.  A namespace gives each of them a value or leaves it
    undefined; [RobotState] is given by its [unpack], [RobotMode] by its
    constants [READY] and [RUNNING], and the message classes and the
    publisher by whether they exist. *)
Record Globals : Type := mkGlobals {
  g_RobotState : option (list byte -> RobotState);
  g_IOStates : bool;
  g_DigitalIn : bool;
  g_DigitalOut : bool;
  g_MULT_analog_robotstate : option Q;
  g_Analog : bool;
  g_pub_io_states : bool;
  g_RobotMode : option (Z * Z)
}.

(** The namespace of [driver.py] as it stands: lines 1-18 import none of
    these names, no statement of the module defines one, and the
    assignment of [pub_io_states] at line 44 is a comment. *)
Definition driver_globals : Globals :=
  mkGlobals None false false false None false false None.

(** [state.unknown_ptypes.sort()] on the state object. *)
Definition sort_unknown_ptypes (state : RobotState) : RobotState :=
  mkRobotState (robot_mode_data state) (masterboard_data state)
               (sort (unknown_ptypes state)).

Section Methods.

Variable g : Globals.

Local Open Scope method_scope.

(** The value of a global name. *)
Definition lookup {A : Type} (name : string) (v : option A) : Meth A :=
  match v with
  | Some a => ret a
  | None => raise (NameError name)
  end.

Definition defined (name : string) (b : bool) : Meth unit :=
  if b then ret tt else raise (NameError name).

Definition trigger_disconnected : Meth unit :=
  tell (Log "Robot disconnected") ;;
  modify (fun s => with_robot_state s DISCONNECTED).

Definition trigger_ready_to_program : Meth unit :=
  tell (LogInfo "Robot ready to program").

Definition trigger_halted : Meth unit :=
  tell (Log "Halted").

(** [rostime] is the reading of [rospy.get_time()]. *)
Definition throttle_warn_unknown (period : Q) (ptypes : list Z) (rostime : Q)
  : Meth unit :=
  self <- get ;;
  let hit := match last_hit self with Some h => h | None => 0 end in
  modify (fun s => with_last_hit s (Some hit)) ;;
  if Qle_bool (hit + period) rostime then
    modify (fun s => with_last_hit s (Some rostime)) ;;
    tell (LogWarnUnknown ptypes)
  else ret tt.

(** [state.robot_mode_data.robot_mode in [RobotMode.READY,
    RobotMode.RUNNING]] *)
Definition can_execute (modes : Z * Z) (state : RobotState) : bool :=
  Z.eqb (robot_mode (robot_mode_data state)) (fst modes)
  || Z.eqb (robot_mode (robot_mode_data state)) (snd modes).

(** Each global name is looked up where the statement that uses it is
    reached.  [self.last_state] and [state] are one object, so the sort of
    line 339 shows in [last_state]. *)
Definition on_packet (packet : list byte) (rostime : Q) : Meth unit :=
  unpack <- lookup "RobotState" (g_RobotState g) ;;
  let state := unpack packet in
  modify (fun s => with_last_state s (Some state)) ;;
  if negb (real_robot_enabled (robot_mode_data state)) then
    tell (LogFatal "Real robot is no longer enabled.  Driver is fuxored") ;;
    tell (Sleep 2) ;;
    raise (SystemExit 1)
  else
    let mb := masterboard_data state in
    defined "IOStates" (g_IOStates g) ;;
    defined "DigitalIn" (g_DigitalIn g) ;;
    let din := map (fun i => (i, bit_of (digital_input_bits mb) i)) range10 in
    defined "DigitalOut" (g_DigitalOut g) ;;
    let dout := map (fun i => (i, bit_of (digital_output_bits mb) i)) range10 in
    mult <- lookup "MULT_analog_robotstate" (g_MULT_analog_robotstate g) ;;
    in0 <- lift (checked_div (analog_input0 mb) mult) ;;
    defined "Analog" (g_Analog g) ;;
    in1 <- lift (checked_div (analog_input1 mb) mult) ;;
    out0 <- lift (checked_div (analog_output0 mb) mult) ;;
    out1 <- lift (checked_div (analog_output1 mb) mult) ;;
    defined "pub_io_states" (g_pub_io_states g) ;;
    tell (PublishIO (mkIOStates din dout [(0%Z, in0); (1%Z, in1)]
                                [(0%Z, out0); (1%Z, out1)])) ;;
    modes <- lookup "RobotMode" (g_RobotMode g) ;;
    self <- get ;;
    match robot_state self with
    | CONNECTED =>
        if can_execute modes state then
          trigger_ready_to_program ;;
          modify (fun s => with_robot_state s READY_TO_PROGRAM)
        else ret tt
    | READY_TO_PROGRAM =>
        if negb (can_execute modes state) then
          modify (fun s => with_robot_state s CONNECTED)
        else ret tt
    | EXECUTING =>
        if negb (can_execute modes state) then
          trigger_halted ;;
          modify (fun s => with_robot_state s CONNECTED)
        else ret tt
    | DISCONNECTED => ret tt
    end ;;
    if (0 <? List.length (unknown_ptypes state))%nat then
      modify (fun s => with_last_state s (Some (sort_unknown_ptypes state))) ;;
      throttle_warn_unknown 1 (sort (unknown_ptypes state)) rostime
    else ret tt.

(** The [while len(self.__buf) >= 48] loop of [__run].  A declared length
    of zero cuts an empty packet and leaves the buffer as it is, so the
    loop need not end: [None] is the answer when [fuel] turns are not
    enough. *)
Fixpoint drain (fuel : nat) (rostime : Q) (s : State)
  : option (outcome unit * State * list Effect) :=
  match fuel with
  | O => None
  | S fuel' =>
      match try_extract (buf s) with
      | Raise x => Some (Raised x, s, [])
      | Ok None => Some (Normal tt, s, [])
      | Ok (Some (packet, rest)) =>
          match on_packet packet rostime (with_buf s rest) with
          | (Normal _, s1, e1) =>
              match drain fuel' rostime s1 with
              | Some (o, s2, e2) => Some (o, s2, e1 ++ e2)
              | None => None
              end
          | (Raised x, s1, e1) => Some (Raised x, s1, e1)
          end
      end
  end.

(** One turn of the outer loop of [__run]: [ready] is what [select] and
    [recv] delivered, [None] for a timeout. *)
Definition run_turn (fuel : nat) (rostime : Q) (ready : option (list byte))
  (s : State) : option (outcome unit * State * list Effect) :=
  match ready with
  | Some (b :: more) =>
      drain fuel rostime (with_buf s (buf s ++ b :: more))
  | _ =>
      Some ((trigger_disconnected ;;
             modify (fun s => with_keep_running s false)) s)
  end.

(** [__on_packet] applied to the packets of a list in turn, as the read
    loop does; an exception ends the thread. *)
Fixpoint on_packets (packets : list (list byte)) (rostime : Q) : Meth unit :=
  match packets with
  | [] => ret tt
  | p :: ps => on_packet p rostime ;; on_packets ps rostime
  end.

End Methods.

(** The connection as [connect] leaves it. *)
Definition connected : State := mkState [] CONNECTED None true None.

End Connection.

(* ------------------------------------------------------------------ *)
(** ** Predicates and sample data used by the statements *)

(** A joint vector has one scalar per joint of the arm. *)
Definition joint_vector (v : list pyfloat) : Prop := List.length v = 6%nat.

(** A waypoint that [interp_cubic] can read: positions and velocities are
    joint vectors. *)
Definition waypoint_ok (p : JointTrajectoryPoint) : Prop :=
  joint_vector (positions p) /\ joint_vector (velocities p).

Definition all_finite (v : list pyfloat) : Prop :=
  Forall (fun x => is_finite x = true) v.

Fixpoint nondecreasing (l : list Z) : bool :=
  match l with
  | a :: ((b :: _) as l') => (a <=? b)%Z && nondecreasing l'
  | _ => true
  end.

(** The invariant of the data model: at least one waypoint, the first at
    time 0, times in non-decreasing order, every waypoint made of joint
    vectors. *)
Definition traj_invariant (tr : JointTrajectory) : Prop :=
  (exists p rest, points tr = p :: rest /\ time_from_start p = 0%Z)
  /\ nondecreasing (map time_from_start (points tr)) = true
  /\ Forall waypoint_ok (points tr).

(** What sampling needs of the active trajectory, at any time: a first
    waypoint at time 0 and joint vectors throughout. *)
Definition sample_safe (tr : JointTrajectory) : Prop :=
  (exists p rest, points tr = p :: rest /\ time_from_start p = 0%Z)
  /\ Forall waypoint_ok (points tr).

(** The three accumulators of [interp_cubic] keep six entries each. *)
Definition triple_len (acc : list pyfloat * list pyfloat * list pyfloat)
  : Prop :=
  let '(q, qdot, qddot) := acc in
  List.length q = 6%nat /\ List.length qdot = 6%nat
  /\ List.length qddot = 6%nat.

Definition const6 (q : Q) : list pyfloat := repeat (Fin q) 6.

(** A waypoint with every joint at position [x] and velocity [v], at
    [ns] nanoseconds. *)
Definition flat_point (x v : Q) (ns : Z) : JointTrajectoryPoint :=
  mkPoint (const6 x) (const6 v) zeros6 [] ns.

(** A waypoint as goal validation leaves it: joint vectors of finite
    positions and velocities. *)
Definition finite_waypoint (p : JointTrajectoryPoint) : Prop :=
  waypoint_ok p /\ all_finite (positions p) /\ all_finite (velocities p).

(** Two waypoints agree in position and velocity. *)
Definition agree_to_first_order (w1 w2 : JointTrajectoryPoint) : Prop :=
  Forall2 feq (positions w1) (positions w2)
  /\ Forall2 feq (velocities w1) (velocities w2).

(** *** Reachable follower states *)

Module FollowerRun.
Import Follower.

(** The entry points of the follower, each with the clock reading it
    takes. *)
Inductive call : Type :=
| Start (now : Q)
| SetRobot (r : option Robot) (now : Q)
| OnGoal (gh : GoalHandle) (now : Q)
| OnCancel (gh : GoalHandle) (now : Q)
| Update (now : Q).

Definition run_call (max_velocity : pyfloat) (c : call) : Meth unit :=
  match c with
  | Start now => init_traj_from_robot now
  | SetRobot r now => set_robot r now
  | OnGoal gh now => on_goal max_velocity gh now
  | OnCancel gh now => on_cancel gh now
  | Update now => _update now
  end.

(** States that a follower can be in: as constructed, or after any call
    from such a state, whether the call returned or raised. *)
Inductive reachable (max_velocity : pyfloat) : State -> Prop :=
| reach_init (r : option Robot) : reachable max_velocity (init r)
| reach_call (s : State) (c : call) :
    reachable max_velocity s ->
    reachable max_velocity (state_of (run_call max_velocity c s)).

(** The active trajectory can be sampled, and an active goal has a
    trajectory. *)
Definition state_ok (s : State) : Prop :=
  (forall tr, traj s = Some tr -> sample_safe tr)
  /\ (goal_handle s <> None -> traj s <> None).

(** Sample data: a goal in canonical joint order and one whose joints come
    in another order. *)
Definition goal_A : GoalHandle :=
  mkGoalHandle 1 (mkTraj JOINT_NAMES [flat_point 1 0 2000000000]).

Definition goal_B : GoalHandle :=
  mkGoalHandle 2
    (mkTraj ["wrist3_joint"; "wrist2_joint"; "wrist1_joint";
             "foreArm_joint"; "upperArm_joint"; "shoulder_joint"]
       [mkPoint [Fin 6; Fin 5; Fin 4; Fin 3; Fin 2; Fin 1] (const6 0) [] []
                3000000000]).

(** The follower of [main]: built with no robot and started at time 100. *)
Definition s_started : State :=
  state_of (init_traj_from_robot 100 (init None)).

(** ... after goal A was accepted at time 101. *)
Definition s_active : State :=
  state_of (on_goal MAX_VELOCITY goal_A 101 s_started).

(** ... after a timer tick at time 102, inside the two seconds of goal A's
    trajectory. *)
Definition s_tracking : State := state_of (_update 102 s_active).

Definition a_robot : Robot := mkRobot zeros6 zeros6.

Definition is_servo (e : Effect) : bool :=
  match e with SendServoj _ _ _ => true | _ => false end.

End FollowerRun.

(** *** The connection *)

Module ConnectionRun.
Import Connection.

Definition is_ready_trigger (e : Effect) : bool :=
  match e with
  | LogInfo msg => String.eqb msg "Robot ready to program"
  | _ => false
  end.

(** How often the "ready to program" trigger fired. *)
Definition ready_triggers (evs : list Effect) : nat :=
  List.length (filter is_ready_trigger evs).

(** Sample data: a packet of [n] bytes (at least 7) with its length field,
    type 16 and two more bytes of header. *)
Definition sample_packet (n : nat) (len3 enabled mode : byte) : list byte :=
  [x00; x00; x00; len3; x10; enabled; mode] ++ repeat x00 (n - 7).

(** Two packets of 60 bytes, as a robot in the modes Ready and Running
    sends them. *)
Definition pkt_ready : list byte := sample_packet 60 x3c x01 x02.
Definition pkt_running : list byte := sample_packet 60 x3c x01 x00.

Definition frame60 : list byte := sample_packet 60 x3c x01 x02.
Definition frame10 : list byte := sample_packet 10 x0a x01 x02.
Definition trailing10 : list byte := repeat xff 10.

End ConnectionRun.

(* ------------------------------------------------------------------ *)
(** ** Further functions of the module, and data for their statements *)


(** A velocity within the limit, as [has_limited_velocities] tests it. *)
Definition within_limit (max_velocity v : pyfloat) : Prop :=
  fgt (fabs v) max_velocity = false.

(** A waypoint that passed goal validation and reordering: six finite
    positions, six finite velocities within the limit. *)
Definition validated_waypoint (max_velocity : pyfloat)
  (p : JointTrajectoryPoint) : Prop :=
  finite_waypoint p /\ Forall (within_limit max_velocity) (velocities p).

Module FollowerData.
Import Follower.

(** Sample data: a goal whose only waypoint has no positions and no
    velocities, and a goal with a velocity above the default limit. *)
Definition goal_empty_waypoint : GoalHandle :=
  mkGoalHandle 3 (mkTraj JOINT_NAMES [mkPoint [] [] [] [] 1000000000]).

Definition goal_too_fast : GoalHandle :=
  mkGoalHandle 4 (mkTraj JOINT_NAMES [flat_point 1 11 1000000000]).

(** What a timer tick may do besides nothing: publish a joint state and
    print the setpoint. *)
Definition is_telemetry (e : Effect) : bool :=
  match e with
  | PublishJointState _ _ _ _ | PrintLine _ _ => true
  | _ => false
  end.

End FollowerData.

Module ConnectionData.
Import Connection ConnectionRun.



(** A frame as the read loop can cut it: at least 48 bytes, with its own
    length in the first four. *)
Definition whole_frame (f : list byte) : Prop :=
  (48 <= List.length f)%nat
  /\ exists ty, unpack_IB f = Ok (N.of_nat (List.length f), ty).

(** Sample data: a buffer of 48 bytes whose length field is zero. *)
Definition zero_length_buffer : list byte := repeat x00 48.

Definition with_buffer (b : list byte) : State :=
  mkState b CONNECTED None true None.

End ConnectionData.

(** *** Sending programs to the controller *)

Module Programming.
Import Connection.

(** What ends [send_program] or [send_reset_program] early: a failed
    [assert], a [socket.error] out of [sendall], or the attribute lookup on
    a socket that is [None]. *)
Inductive failure : Type :=
| AssertionFailed
| SocketError
| SocketIsNone.

Inductive Effect : Type :=
| Info (msg : string)
| Sendall (data : string).

(** The connection with its socket ([sock] tells whether [self.__sock] is
    a socket) and the program it was built with. *)
Record Device : Type := mkDevice {
  conn : State;
  sock : bool;
  program : string
}.

Definition with_conn (d : Device) (c : State) : Device :=
  mkDevice c (sock d) (program d).

Definition RESET_PROGRAM : string :=
  "def resetProg():
  sleep(0.0)
end
".

Definition ready_to_program (d : Device) : bool :=
  match robot_state (conn d) with
  | READY_TO_PROGRAM | EXECUTING => true
  | _ => false
  end.

(** [self.__sock.sendall(data)]; [send_ok] tells whether the operating
    system delivers. *)
Definition sendall (send_ok : bool) (d : Device) (data : string)
  : option failure * list Effect :=
  if sock d then
    if send_ok then (None, [Sendall data]) else (Some SocketError, [])
  else (Some SocketIsNone, []).

(** [prevent_programming] is the global flag of the module. *)
Definition send_program (prevent_programming send_ok : bool) (d : Device)
  : option failure * Device * list Effect :=
  if prevent_programming then
    (None, d, [Info "Programming is currently prevented"])
  else if negb (ready_to_program d) then (Some AssertionFailed, d, [])
  else
    match sendall send_ok d (program d) with
    | (None, e) =>
        (None, with_conn d (with_robot_state (conn d) EXECUTING),
         Info "Programming the robot" :: e)
    | (Some f, e) => (Some f, d, Info "Programming the robot" :: e)
    end.

Definition send_reset_program (send_ok : bool) (d : Device)
  : option failure * Device * list Effect :=
  match sendall send_ok d RESET_PROGRAM with
  | (None, e) =>
      (None, with_conn d (with_robot_state (conn d) READY_TO_PROGRAM), e)
  | (Some f, e) => (Some f, d, e)
  end.

(** Sample data: a device as [connect] leaves it, with its socket. *)
Definition a_device : Device := mkDevice connected true "def prog(): end".

End Programming.

(* ------------------------------------------------------------------ *)
(** ** The interpolator *)

Unset Implicit Arguments.

Lemma Qle_bool_false_lt (a b : Q) : Qle_bool a b = false -> b < a.
Proof.
  intros H. apply Qnot_le_lt. intros Hle.
  apply Qle_bool_iff in Hle. congruence.
Qed.

Lemma Qlt_bool_true (a b : Q) : Qlt_bool a b = true <-> a < b.
Proof.
  unfold Qlt_bool. split; intros H.
  - apply Qle_bool_false_lt. now apply negb_true_iff.
  - apply negb_true_iff. destruct (Qle_bool b a) eqn:E; [|reflexivity].
    apply Qle_bool_iff in E. exfalso. exact (Qlt_not_le _ _ H E).
Qed.

Lemma Qlt_bool_false (a b : Q) : Qlt_bool a b = false <-> b <= a.
Proof.
  unfold Qlt_bool. rewrite negb_false_iff. apply Qle_bool_iff.
Qed.

(** C5 (as amended).  With at least one waypoint, a sample at [t <= 0] is
    the first waypoint itself, and a sample at [t > 0] that is at or after
    the last waypoint's time is the last waypoint itself. *)
Theorem sample_traj_clamps (traj : JointTrajectory) (t : Q) :
  points traj <> [] ->
  exists first lastp,
    getitem (points traj) 0 = Ok first
    /\ getlast (points traj) = Ok lastp
    /\ (t <= 0 -> sample_traj traj t = Ok first)
    /\ (0 < t -> to_sec (time_from_start lastp) <= t ->
        sample_traj traj t = Ok lastp).
Proof.
  intros Hne. destruct (points traj) as [|p ps] eqn:Hp; [congruence|].
  exists p, (last ps p). unfold sample_traj. rewrite Hp. cbn.
  repeat split; try reflexivity.
  - intros Ht. apply Qle_bool_iff in Ht. now rewrite Ht.
  - intros Hpos Hlast.
    destruct (Qle_bool t 0) eqn:E.
    + apply Qle_bool_iff in E. exfalso. exact (Qlt_not_le _ _ Hpos E).
    + apply Qle_bool_iff in Hlast. now rewrite Hlast.
Qed.

Lemma sample_traj_clamps_witness :
  exists first lastp,
    getitem [flat_point 0 0 0; flat_point 1 0 2000000000] 0 = Ok first
    /\ getlast [flat_point 0 0 0; flat_point 1 0 2000000000] = Ok lastp
    /\ (3 <= 0 ->
        sample_traj (mkTraj JOINT_NAMES
                       [flat_point 0 0 0; flat_point 1 0 2000000000]) 3
        = Ok first)
    /\ (0 < 3 -> to_sec (time_from_start lastp) <= 3 ->
        sample_traj (mkTraj JOINT_NAMES
                       [flat_point 0 0 0; flat_point 1 0 2000000000]) 3
        = Ok lastp).
Proof.
  apply (sample_traj_clamps
           (mkTraj JOINT_NAMES [flat_point 0 0 0; flat_point 1 0 2000000000])
           3).
  simpl. discriminate.
Defined.

(** C5 as stated fails: with two waypoints both at time 0, a sample at
    [t = 0] is at the last waypoint's time and yet is the first waypoint. *)
Lemma sample_traj_last_clamp_fails :
  let traj := mkTraj JOINT_NAMES [flat_point 0 0 0; flat_point 1 0 0] in
  getlast (points traj) = Ok (flat_point 1 0 0)
  /\ to_sec (time_from_start (flat_point 1 0 0)) <= 0
  /\ sample_traj traj 0 = Ok (flat_point 0 0 0)
  /\ sample_traj traj 0 <> Ok (flat_point 1 0 0).
Proof.
  cbn. repeat split; try discriminate.
Qed.

(** *** Totality of sampling *)

Lemma getitem_lt {A} (l : list A) (i : nat) :
  (i < List.length l)%nat -> exists a, getitem l i = Ok a.
Proof.
  intros H. unfold getitem.
  destruct (nth_error l i) eqn:E; [eauto|].
  apply nth_error_None in E. lia.
Qed.

Lemma setitem_lt {A} (l : list A) (i : nat) (v : A) :
  (i < List.length l)%nat ->
  exists l', setitem l i v = Ok l' /\ List.length l' = List.length l.
Proof.
  revert i. induction l as [|a l IH]; intros i H; simpl in *; [lia|].
  destruct i as [|i].
  - eexists. split; [reflexivity|reflexivity].
  - destruct (IH i) as [l' [E L]]; [lia|].
    rewrite E. eexists. split; [reflexivity|]. simpl. now rewrite L.
Qed.

Lemma fdiv_nonzero (x : pyfloat) (b : Q) :
  ~ b == 0 -> exists r, fdiv x (Fin b) = Ok r.
Proof.
  intros Hb. unfold fdiv.
  destruct (Qeq_bool b 0) eqn:E.
  - apply Qeq_bool_eq in E. contradiction.
  - destruct x; eauto.
Qed.

Lemma Qsquare_nonzero (T : Q) : ~ T == 0 -> ~ T ^ 2 == 0.
Proof.
  intros H E. apply H. simpl in E.
  destruct (Qmult_integral _ _ E); assumption.
Qed.

Lemma Qcube_nonzero (T : Q) : ~ T == 0 -> ~ T ^ 3 == 0.
Proof.
  intros H E. apply H. simpl in E.
  destruct (Qmult_integral _ _ E) as [E1|E1]; [assumption|].
  destruct (Qmult_integral _ _ E1); assumption.
Qed.

Lemma to_sec_nonzero (d : Duration) : d <> 0%Z -> ~ to_sec d == 0.
Proof.
  unfold to_sec, Qeq. simpl. lia.
Qed.

Lemma to_sec_lt (a b : Duration) : to_sec a < to_sec b <-> (a < b)%Z.
Proof.
  unfold to_sec, Qlt, NSEC_PER_SEC. simpl. lia.
Qed.

Lemma to_sec_le (a b : Duration) : to_sec a <= to_sec b <-> (a <= b)%Z.
Proof.
  unfold to_sec, Qle, NSEC_PER_SEC. simpl. lia.
Qed.

Lemma interp_joint_total (p0 p1 : JointTrajectoryPoint) (T t : Q)
  (acc : list pyfloat * list pyfloat * list pyfloat) (i : nat) :
  waypoint_ok p0 -> waypoint_ok p1 -> ~ T == 0 -> triple_len acc ->
  (i < 6)%nat ->
  exists acc', interp_joint p0 p1 T t acc i = Ok acc' /\ triple_len acc'.
Proof.
  intros [Hp0 Hv0] [Hp1 Hv1] HT Hacc Hi.
  destruct acc as [[q qdot] qddot]. destruct Hacc as [Lq [Lqd Lqdd]].
  unfold joint_vector in *. unfold interp_joint.
  destruct (getitem_lt (positions p0) i) as [a ->]; [lia|].
  destruct (getitem_lt (velocities p0) i) as [b ->]; [lia|].
  destruct (getitem_lt (positions p1) i) as [x ->]; [lia|].
  destruct (getitem_lt (velocities p1) i) as [y ->]; [lia|].
  cbn [rbind].
  match goal with |- context [fdiv ?n (Fin (T ^ 2))] =>
    destruct (fdiv_nonzero n _ (Qsquare_nonzero T HT)) as [c ->] end.
  cbn [rbind].
  match goal with |- context [fdiv ?n (Fin (T ^ 3))] =>
    destruct (fdiv_nonzero n _ (Qcube_nonzero T HT)) as [d ->] end.
  cbn [rbind].
  match goal with |- context [setitem q i ?v] =>
    destruct (setitem_lt q i v) as [q' [-> Lq']]; [lia|] end.
  cbn [rbind].
  match goal with |- context [setitem qdot i ?v] =>
    destruct (setitem_lt qdot i v) as [qd' [-> Lqd']]; [lia|] end.
  cbn [rbind].
  match goal with |- context [setitem qddot i ?v] =>
    destruct (setitem_lt qddot i v) as [qdd' [-> Lqdd']]; [lia|] end.
  cbn [rbind].
  eexists. split; [reflexivity|]. cbn. lia.
Qed.

Lemma interp_loop_total (p0 p1 : JointTrajectoryPoint) (T t : Q)
  (idxs : list nat) :
  waypoint_ok p0 -> waypoint_ok p1 -> ~ T == 0 ->
  Forall (fun i => (i < 6)%nat) idxs ->
  forall acc, triple_len acc ->
  exists acc', interp_loop p0 p1 T t idxs acc = Ok acc' /\ triple_len acc'.
Proof.
  intros H0 H1 HT. induction 1 as [|i idxs Hi _ IH]; intros acc Hacc.
  - exists acc. now split.
  - simpl. destruct (interp_joint_total p0 p1 T t acc i H0 H1 HT Hacc Hi) as [acc1 [-> L1]].
    cbn [rbind]. now apply IH.
Qed.

Lemma interp_cubic_total (p0 p1 : JointTrajectoryPoint) (t_abs : Q) :
  waypoint_ok p0 -> waypoint_ok p1 ->
  time_from_start p0 <> time_from_start p1 ->
  exists w, interp_cubic p0 p1 t_abs = Ok w /\ waypoint_ok w.
Proof.
  intros H0 H1 Hne. unfold interp_cubic.
  assert (HT : ~ to_sec (time_from_start p1 - time_from_start p0)%Z == 0)
    by (apply to_sec_nonzero; lia).
  assert (Hidx : Forall (fun i => (i < 6)%nat)
                   (seq 0 (List.length (positions p0)))).
  { destruct H0 as [-> _]. repeat constructor. }
  destruct (interp_loop_total p0 p1 _
              (t_abs - to_sec (time_from_start p0)) _ H0 H1 HT Hidx
              (zeros6, zeros6, zeros6))
    as [[[q qd] qdd] [-> [Lq [Lqd _]]]].
  { cbn. auto. }
  cbn [rbind]. eexists. split; [reflexivity|]. split; assumption.
Qed.

Lemma last_cons_default {A} (l : list A) (a d : A) :
  last (a :: l) d = last l a.
Proof.
  revert a d. induction l as [|b l IH]; intros a d; [reflexivity|].
  change (last (a :: b :: l) d) with (last (b :: l) d).
  rewrite (IH b d), (IH b a). reflexivity.
Qed.

Lemma last_in {A} (l : list A) (d : A) : In (last l d) (d :: l).
Proof.
  revert d. induction l as [|a l IH]; intros d; [now left|].
  rewrite last_cons_default. right. apply IH.
Qed.

Lemma find_segment_step (p0 p1 : JointTrajectoryPoint)
  (rest : list JointTrajectoryPoint) (t : Q) :
  find_segment (p0 :: p1 :: rest) t =
  if Qlt_bool (to_sec (time_from_start p1)) t
  then find_segment (p1 :: rest) t
  else Ok (p0, p1).
Proof. reflexivity. Qed.

(** The segment search stops inside the list when [t] is before the last
    waypoint's time, on a segment whose end is not before [t] and whose
    start, unless it is the head of the list, is before [t]. *)
Lemma find_segment_total (t : Q) (rest : list JointTrajectoryPoint) :
  forall p : JointTrajectoryPoint,
  t < to_sec (time_from_start (last rest p)) ->
  rest <> [] ->
  exists p0 p1,
    find_segment (p :: rest) t = Ok (p0, p1)
    /\ In p0 (p :: rest) /\ In p1 (p :: rest)
    /\ t <= to_sec (time_from_start p1)
    /\ (p0 = p \/ to_sec (time_from_start p0) < t).
Proof.
  induction rest as [|p1 rest IH]; intros p Hlast Hne; [congruence|].
  rewrite find_segment_step.
  destruct (Qlt_bool (to_sec (time_from_start p1)) t) eqn:E.
  - apply Qlt_bool_true in E.
    destruct rest as [|p2 rest'].
    + simpl in Hlast. exfalso.
      exact (Qlt_irrefl _ (Qlt_trans _ _ _ Hlast E)).
    + destruct (IH p1) as [q0 [q1 [Hf [I0 [I1 [Hle Hst]]]]]].
      * rewrite last_cons_default in Hlast. exact Hlast.
      * discriminate.
      * exists q0, q1. rewrite Hf. repeat split; auto using in_cons.
        right. destruct Hst as [->|Hst]; assumption.
  - apply Qlt_bool_false in E.
    exists p, p1. repeat split; auto using in_eq, in_cons.
Qed.

(** Sampling is defined at every time on a trajectory that starts at time 0
    and is made of joint vectors, and the sample is again made of joint
    vectors. *)
Lemma sample_traj_safe (tr : JointTrajectory) (t : Q) :
  sample_safe tr ->
  exists w, sample_traj tr t = Ok w /\ waypoint_ok w.
Proof.
  intros [[p [rest [Hp Hz]]] Hall]. unfold sample_traj. rewrite Hp in *.
  destruct (Qle_bool t 0) eqn:Et.
  - exists p. split; [reflexivity|]. now inversion Hall.
  - cbn [getlast rbind].
    assert (Hin : In (last rest p) (p :: rest)).
    { apply last_in. }
    destruct (Qle_bool (to_sec (time_from_start (last rest p))) t) eqn:El.
    + exists (last rest p). split; [reflexivity|].
      rewrite Forall_forall in Hall. now apply Hall.
    + apply Qle_bool_false_lt in El. apply Qle_bool_false_lt in Et.
      assert (Hne : rest <> []).
      { intros ->. simpl in El. rewrite Hz in El.
        unfold to_sec, Qlt in *. simpl in *. lia. }
      destruct (find_segment_total t rest p El Hne)
        as [p0 [p1 [-> [I0 [I1 [Hle Hst]]]]]].
      cbn [rbind]. rewrite Forall_forall in Hall.
      apply interp_cubic_total; auto.
      intros Heq.
      assert (Hlt : to_sec (time_from_start p0) < t).
      { destruct Hst as [->|Hst]; [|assumption].
        rewrite Hz. apply Qle_lt_trans with 0; [|exact Et].
        unfold to_sec, Qle. simpl. lia. }
      rewrite Heq in Hlt. exact (Qlt_not_le _ _ Hlt Hle).
Qed.

Lemma traj_invariant_safe (tr : JointTrajectory) :
  traj_invariant tr -> sample_safe tr.
Proof.
  intros [H1 [_ H3]]. split; assumption.
Qed.

(** C8.  On a trajectory that satisfies the invariant of the data model,
    sampling at a time in the trajectory's own range returns a waypoint:
    no index leaves the list of waypoints and no segment has a zero
    duration to divide by. *)
Theorem sample_traj_total (tr : JointTrajectory) (t : Q)
  (lastp : JointTrajectoryPoint) :
  traj_invariant tr ->
  getlast (points tr) = Ok lastp ->
  0 <= t -> t <= to_sec (time_from_start lastp) ->
  exists w, sample_traj tr t = Ok w.
Proof.
  intros Hinv _ _ _.
  destruct (sample_traj_safe tr t (traj_invariant_safe tr Hinv)) as [w [Hw _]].
  now exists w.
Qed.

Lemma sample_traj_total_witness :
  exists w,
    sample_traj (mkTraj JOINT_NAMES
                   [flat_point 0 0 0; flat_point 1 0 2000000000]) 1 = Ok w.
Proof.
  apply (sample_traj_total
           (mkTraj JOINT_NAMES [flat_point 0 0 0; flat_point 1 0 2000000000])
           1 (flat_point 1 0 2000000000)).
  - split; [|split].
    + exists (flat_point 0 0 0), [flat_point 1 0 2000000000].
      split; reflexivity.
    + reflexivity.
    + repeat constructor.
  - reflexivity.
  - vm_compute. discriminate.
  - vm_compute. discriminate.
Defined.

(** *** Continuity at segment boundaries *)

Lemma six_finite (l : list pyfloat) :
  joint_vector l -> all_finite l ->
  exists a b c d e f, l = [Fin a; Fin b; Fin c; Fin d; Fin e; Fin f].
Proof.
  unfold joint_vector, all_finite. intros L F.
  do 6 (destruct l as [|[?| | |] l];
        [discriminate L| |exfalso; inversion F; discriminate ..];
        apply Forall_inv_tail in F).
  destruct l; [|discriminate L].
  repeat eexists.
Qed.

Ltac six_fin H1 H2 :=
  let a := fresh "a" in let b := fresh "b" in let c := fresh "c" in
  let d := fresh "d" in let e := fresh "e" in let f := fresh "f" in
  let E := fresh "E" in
  destruct (six_finite _ H1 H2) as [a [b [c [d [e [f E]]]]]];
  simpl in E; subst.

Ltac run_cubic HT2 HT3 :=
  repeat (cbn [time_from_start positions velocities List.length seq
                 interp_loop interp_joint getitem nth_error rbind
                 fmul fadd fsub fneg fdiv setitem zeros6 repeat zero];
          rewrite ?HT2, ?HT3).

Lemma Qeq_bool_square (T : Q) : ~ T == 0 -> Qeq_bool (T ^ 2) 0 = false.
Proof.
  intros H. destruct (Qeq_bool (T ^ 2) 0) eqn:E; [|reflexivity].
  apply Qeq_bool_eq in E. exfalso. exact (Qsquare_nonzero T H E).
Qed.

Lemma Qeq_bool_cube (T : Q) : ~ T == 0 -> Qeq_bool (T ^ 3) 0 = false.
Proof.
  intros H. destruct (Qeq_bool (T ^ 3) 0) eqn:E; [|reflexivity].
  apply Qeq_bool_eq in E. exfalso. exact (Qcube_nonzero T H E).
Qed.

Lemma to_sec_sub (a b : Duration) :
  to_sec a - to_sec b == to_sec (a - b)%Z.
Proof.
  unfold to_sec, Qeq, Qminus, Qplus, Qopp, NSEC_PER_SEC. simpl. lia.
Qed.

(** The earlier segment's cubic at its full duration. *)
Lemma interp_cubic_at_end (p0 p1 : JointTrajectoryPoint) :
  waypoint_ok p0 -> waypoint_ok p1 ->
  all_finite (positions p0) -> all_finite (velocities p0) ->
  all_finite (positions p1) -> all_finite (velocities p1) ->
  (time_from_start p0 < time_from_start p1)%Z ->
  exists w,
    interp_cubic p0 p1 (to_sec (time_from_start p1)) = Ok w
    /\ Forall2 feq (positions w) (positions p1)
    /\ Forall2 feq (velocities w) (velocities p1).
Proof.
  intros [Lp0 Lv0] [Lp1 Lv1] Fp0 Fv0 Fp1 Fv1 Hlt.
  destruct p0 as [pos0 vel0 acc0 eff0 t0], p1 as [pos1 vel1 acc1 eff1 t1].
  simpl in *.
  six_fin Lp0 Fp0. six_fin Lv0 Fv0. six_fin Lp1 Fp1. six_fin Lv1 Fv1.
  assert (HT : ~ to_sec (t1 - t0)%Z == 0) by (apply to_sec_nonzero; lia).
  pose proof (to_sec_sub t1 t0) as Ht.
  unfold interp_cubic. cbn [time_from_start].
  set (T := to_sec (t1 - t0)%Z) in *.
  set (t := to_sec t1 - to_sec t0) in *.
  clearbody T t.
  pose proof (Qeq_bool_square T HT) as HT2.
  pose proof (Qeq_bool_cube T HT) as HT3.
  run_cubic HT2 HT3.
  eexists. split; [reflexivity|].
  cbn [positions velocities].
  split; repeat constructor; cbn [feq]; rewrite Ht; field; exact HT.
Qed.

(** The later segment's cubic at time 0 of the segment. *)
Lemma interp_cubic_at_start (p0 p1 : JointTrajectoryPoint) :
  waypoint_ok p0 -> waypoint_ok p1 ->
  all_finite (positions p0) -> all_finite (velocities p0) ->
  all_finite (positions p1) -> all_finite (velocities p1) ->
  (time_from_start p0 < time_from_start p1)%Z ->
  exists w,
    interp_cubic p0 p1 (to_sec (time_from_start p0)) = Ok w
    /\ Forall2 feq (positions w) (positions p0)
    /\ Forall2 feq (velocities w) (velocities p0).
Proof.
  intros [Lp0 Lv0] [Lp1 Lv1] Fp0 Fv0 Fp1 Fv1 Hlt.
  destruct p0 as [pos0 vel0 acc0 eff0 t0], p1 as [pos1 vel1 acc1 eff1 t1].
  simpl in *.
  six_fin Lp0 Fp0. six_fin Lv0 Fv0. six_fin Lp1 Fp1. six_fin Lv1 Fv1.
  assert (HT : ~ to_sec (t1 - t0)%Z == 0) by (apply to_sec_nonzero; lia).
  assert (Ht : to_sec t0 - to_sec t0 == 0) by ring.
  unfold interp_cubic. cbn [time_from_start].
  set (T := to_sec (t1 - t0)%Z) in *.
  set (t := to_sec t0 - to_sec t0) in *.
  clearbody T t.
  pose proof (Qeq_bool_square T HT) as HT2.
  pose proof (Qeq_bool_cube T HT) as HT3.
  run_cubic HT2 HT3.
  eexists. split; [reflexivity|].
  cbn [positions velocities].
  split; repeat constructor; cbn [feq]; rewrite Ht; field; exact HT.
Qed.

Lemma feq_sym (x y : pyfloat) : feq x y -> feq y x.
Proof.
  destruct x, y; simpl; auto. intros H. now symmetry.
Qed.

Lemma feq_trans (x y z : pyfloat) : feq x y -> feq y z -> feq x z.
Proof.
  destruct x, y, z; simpl; auto; try contradiction.
  intros H1 H2. now rewrite H1.
Qed.

Lemma Forall2_feq_join (a b c : list pyfloat) :
  Forall2 feq a c -> Forall2 feq b c -> Forall2 feq a b.
Proof.
  intros H. revert b. induction H as [|x z a c Hxz _ IH]; intros b Hb.
  - inversion Hb. constructor.
  - inversion Hb as [|y z' b' c' Hyz Hb']; subst. constructor.
    + eapply feq_trans; [exact Hxz|]. now apply feq_sym.
    + now apply IH.
Qed.

(** The interpolant over exact arithmetic.  With the arithmetic of [Fin],
    which does not round, the cubic of the earlier of two adjacent
    segments at its full duration and the cubic of the later one at its
    start both give the positions and velocities of the shared waypoint;
    the accelerations of the two cubics at the boundary can differ.  What
    the binary64 arithmetic of the interpreter makes of this is the
    subject of [Binary64Proofs]. *)
Lemma cubic_boundary_continuity_exact :
  (forall p0 p1 p2 : JointTrajectoryPoint,
      finite_waypoint p0 -> finite_waypoint p1 -> finite_waypoint p2 ->
      (time_from_start p0 < time_from_start p1)%Z ->
      (time_from_start p1 < time_from_start p2)%Z ->
      exists w1 w2,
        interp_cubic p0 p1 (to_sec (time_from_start p1)) = Ok w1
        /\ interp_cubic p1 p2 (to_sec (time_from_start p1)) = Ok w2
        /\ agree_to_first_order w1 p1 /\ agree_to_first_order w2 p1 /\ agree_to_first_order w1 w2)
  /\ (exists p0 p1 p2 w1 w2,
        finite_waypoint p0 /\ finite_waypoint p1 /\ finite_waypoint p2
        /\ (time_from_start p0 < time_from_start p1)%Z
        /\ (time_from_start p1 < time_from_start p2)%Z
        /\ interp_cubic p0 p1 (to_sec (time_from_start p1)) = Ok w1
        /\ interp_cubic p1 p2 (to_sec (time_from_start p1)) = Ok w2
        /\ ~ Forall2 feq (accelerations w1) (accelerations w2)).
Proof.
  split.
  - intros p0 p1 p2 [W0 [Fp0 Fv0]] [W1 [Fp1 Fv1]] [W2 [Fp2 Fv2]] H01 H12.
    destruct (interp_cubic_at_end p0 p1 W0 W1 Fp0 Fv0 Fp1 Fv1 H01)
      as [w1 [E1 [P1 V1]]].
    destruct (interp_cubic_at_start p1 p2 W1 W2 Fp1 Fv1 Fp2 Fv2 H12)
      as [w2 [E2 [P2 V2]]].
    exists w1, w2. repeat split; auto.
    + exact (Forall2_feq_join _ _ _ P1 P2).
    + exact (Forall2_feq_join _ _ _ V1 V2).
  - exists (flat_point 0 0 0), (flat_point 1 0 1000000000),
      (flat_point 1 0 2000000000).
    eexists. eexists.
    assert (F : forall x ns, finite_waypoint (flat_point x 0 ns)).
    { intros x ns. repeat split; repeat constructor. }
    split; [apply F|]. split; [apply F|]. split; [apply F|].
    split; [reflexivity|]. split; [reflexivity|].
    split; [vm_compute; reflexivity|]. split; [vm_compute; reflexivity|].
    intros H. inversion H as [|x y l l' Hxy _]; subst.
    vm_compute in Hxy. discriminate Hxy.
Qed.

(* ------------------------------------------------------------------ *)
(** ** Segment boundaries in binary64 *)

Module Binary64Proofs.
Import PrimFloat SpecFloat FloatOps FloatAxioms Binary64.

Local Open Scope float_scope.













End Binary64Proofs.

(* ------------------------------------------------------------------ *)
(** ** The follower *)

Module FollowerProofs.
Import Follower FollowerRun.

Ltac run_method :=
  cbv beta delta [bind tell get put ret raise lift Follower.modify
                  state_of effects_of outcome_of send_servoj
                  get_joint_states] iota;
  cbn [fst snd app].

(** *** Reordering keeps waypoints well formed *)

Lemma mapR_length {A B} (f : A -> result B) (l : list A) (r : list B) :
  mapR f l = Ok r -> List.length r = List.length l.
Proof.
  revert r. induction l as [|a l IH]; intros r; simpl.
  - intros E. now inversion E.
  - destruct (f a); [|discriminate].
    destruct (mapR f l); [|discriminate].
    intros E. inversion E. simpl. f_equal. now apply IH.
Qed.

Lemma mapR_Forall {A B} (f : A -> result B) (P : B -> Prop) (l : list A)
  (r : list B) :
  (forall a b, In a l -> f a = Ok b -> P b) ->
  mapR f l = Ok r -> Forall P r.
Proof.
  revert r. induction l as [|a l IH]; intros r HP; simpl.
  - intros E. inversion E. constructor.
  - destruct (f a) as [b|] eqn:Ea; [|discriminate].
    destruct (mapR f l) as [bs|] eqn:El; [|discriminate].
    intros E. inversion E. constructor.
    + apply (HP a b); [now left|assumption].
    + apply IH; [|reflexivity]. intros a' b' Hin. apply HP. now right.
Qed.

Lemma reorder_point_ok (order : list nat) (p p' : JointTrajectoryPoint) :
  List.length order = 6%nat ->
  List.length (velocities p) = List.length (positions p) ->
  reorder_point order p = Ok p' ->
  waypoint_ok p' /\ time_from_start p' = time_from_start p.
Proof.
  intros Lo Lv. unfold reorder_point.
  destruct (mapR (getitem (positions p)) order) as [pos|] eqn:Ep;
    [|discriminate].
  cbn [rbind].
  destruct (velocities p) as [|v vs] eqn:Ev.
  - exfalso. destruct (positions p); [|simpl in Lv; discriminate Lv].
    destruct order as [|n order]; [discriminate Lo|].
    simpl in Ep. unfold getitem in Ep. destruct n; discriminate Ep.
  - cbn [is_empty].
    destruct (mapR (getitem (v :: vs)) order) as [vel|] eqn:Evel;
      [|discriminate].
    cbn [rbind].
    destruct (if is_empty (accelerations p) then Ok []
              else mapR (getitem (accelerations p)) order) as [acc|];
      [|discriminate].
    cbn [rbind]. intros E. inversion E. subst p'. cbn.
    apply mapR_length in Ep. apply mapR_length in Evel.
    unfold waypoint_ok, joint_vector. cbn. repeat split; congruence.
Qed.

Lemma reorder_traj_joints_ok (tr gt : JointTrajectory) :
  has_velocities tr = true ->
  reorder_traj_joints tr JOINT_NAMES = Ok gt ->
  joint_names gt = JOINT_NAMES /\ Forall waypoint_ok (points gt).
Proof.
  intros Hv. unfold reorder_traj_joints.
  destruct (mapR (index_of (joint_names tr)) JOINT_NAMES) as [order|] eqn:Eo;
    [|discriminate].
  cbn [rbind].
  destruct (mapR (reorder_point order) (points tr)) as [pts|] eqn:Ep;
    [|discriminate].
  cbn [rbind]. intros E. inversion E. subst gt. cbn. split; [reflexivity|].
  apply mapR_length in Eo.
  eapply mapR_Forall; [|exact Ep].
  intros p p' Hin Hp.
  unfold has_velocities in Hv. rewrite forallb_forall in Hv.
  specialize (Hv p Hin). apply Nat.eqb_eq in Hv.
  exact (proj1 (reorder_point_ok order p p' Eo Hv Hp)).
Qed.

(** *** What [on_goal] does *)

(** Either the call leaves the active trajectory alone, keeps or drops the
    active goal and accepts nothing, or the robot is unbound, the goal
    passes every check and is installed behind the sample of the
    trajectory that was active. *)
Lemma on_goal_cases (mv : pyfloat) (gh : GoalHandle) (now : Q) (s : State) :
  let r := on_goal mv gh now s in
  (traj (state_of r) = traj s
   /\ (goal_handle (state_of r) = goal_handle s
       \/ goal_handle (state_of r) = None)
   /\ forall g, ~ In (SetAccepted g) (effects_of r))
  \/ (exists tr p gt,
        robot s = None
        /\ has_velocities (goal_trajectory gh) = true
        /\ reorder_traj_joints (goal_trajectory gh) JOINT_NAMES = Ok gt
        /\ traj s = Some tr
        /\ sample_traj tr (now - traj_t0 s) = Ok p
        /\ outcome_of r = Normal tt
        /\ traj (state_of r)
           = Some (mkTraj JOINT_NAMES (set_time_from_start p 0 :: points gt))
        /\ goal_handle (state_of r)
           = Some (mkGoalHandle (goal_id gh)
                     (mkTraj JOINT_NAMES
                        (set_time_from_start p 0 :: points gt)))
        /\ traj_t0 (state_of r) = now
        /\ (forall old, goal_handle s = Some old ->
            In (SetCanceled (goal_id old)) (effects_of r))).
Proof.
  unfold on_goal. run_method.
  destruct (robot s) as [rb|] eqn:Er.
  { left. run_method. repeat split; auto;
    try (intros g Hin; cbn in Hin; intuition discriminate). }
  destruct (same_name_set (joint_names (goal_trajectory gh)) JOINT_NAMES);
    cbn [negb].
  2:{ left. run_method. repeat split; auto;
      try (intros g Hin; cbn in Hin; intuition discriminate). }
  destruct (traj_is_finite (goal_trajectory gh)); cbn [negb].
  2:{ left. run_method. repeat split; auto;
      try (intros g Hin; cbn in Hin; intuition discriminate). }
  destruct (has_velocities (goal_trajectory gh)) eqn:Ehv; cbn [negb].
  2:{ left. run_method. repeat split; auto;
      try (intros g Hin; cbn in Hin; intuition discriminate). }
  destruct (has_limited_velocities mv (goal_trajectory gh)); cbn [negb].
  2:{ left. run_method. repeat split; auto;
      try (intros g Hin; cbn in Hin; intuition discriminate). }
  destruct (reorder_traj_joints (goal_trajectory gh) JOINT_NAMES)
    as [gt|e] eqn:Egt.
  2:{ left. run_method. repeat split; auto;
      try (intros g Hin; cbn in Hin; intuition discriminate). }
  destruct (reorder_traj_joints_ok _ _ Ehv Egt) as [Hnames _].
  run_method.
  destruct (goal_handle s) as [old|] eqn:Eg; run_method; cbn;
    (destruct (traj s) as [tr|] eqn:Et; cbn;
     [destruct (sample_traj tr (now - traj_t0 s)) as [p|e] eqn:Es; cbn|]).
  - right. exists tr, p, gt. rewrite Hnames.
    repeat split; auto.
    intros old' E. injection E as <-. right. left. reflexivity.
  - left. repeat split; auto; try (intros g Hin; cbn in Hin; intuition discriminate).
  - left. repeat split; auto; try (intros g Hin; cbn in Hin; intuition discriminate).
  - right. exists tr, p, gt. rewrite Hnames.
    repeat split; auto. intros old' E. discriminate E.
  - left. repeat split; auto; try (intros g Hin; cbn in Hin; intuition discriminate).
  - left. repeat split; auto; try (intros g Hin; cbn in Hin; intuition discriminate).
Qed.

(** *** What [on_cancel] does *)

Lemma same_handle_active (gh : GoalHandle) (cur : option GoalHandle) :
  same_handle gh cur = true ->
  exists g, cur = Some g /\ goal_id g = goal_id gh.
Proof.
  destruct cur as [g|]; simpl; [|discriminate].
  intros E. apply Nat.eqb_eq in E. now exists g.
Qed.

Lemma on_cancel_active (gh : GoalHandle) (now : Q) (s : State)
  (tr : JointTrajectory) (p0 p1 : JointTrajectoryPoint) :
  same_handle gh (goal_handle s) = true ->
  traj s = Some tr ->
  sample_traj tr (now - traj_t0 s) = Ok p0 ->
  sample_traj tr (now - traj_t0 s + STOP_DURATION) = Ok p1 ->
  on_cancel gh now s =
  (Normal tt,
   mkState (robot s) None
     (Some (mkTraj JOINT_NAMES
              [set_time_from_start p0 0;
               mkPoint (positions p1) zeros6 zeros6 (effort p1) 500000000]))
     now (first_waypoint_id s) (last_point_sent s)
     (joint_goal_tolerances s),
   [Log "on_cancel"; SetCanceled (goal_id gh)]).
Proof.
  intros Hsame Ht E0 E1.
  destruct (same_handle_active _ _ Hsame) as [g [Eg Hid]].
  unfold on_cancel. run_method. rewrite Hsame, Ht. cbn [sample_active].
  rewrite E0, E1. run_method. rewrite Eg. run_method. cbn.
  rewrite Hid. reflexivity.
Qed.

Lemma on_cancel_other (gh : GoalHandle) (now : Q) (s : State) :
  same_handle gh (goal_handle s) = false ->
  on_cancel gh now s =
  (Normal tt, s, [Log "on_cancel"; SetCanceled (goal_id gh)]).
Proof.
  intros Hsame. unfold on_cancel. run_method. rewrite Hsame. reflexivity.
Qed.

(** *** What [_update] does *)

Lemma getattr_position (p : JointTrajectoryPoint) :
  getattr_point p "position" = Raise AttributeError.
Proof. reflexivity. Qed.

(** A timer tick never commands the arm, never marks the last point as
    sent, and leaves trajectory, start time and robot alone. *)
Lemma update_never_sends (now : Q) (s : State) :
  let r := _update now s in
  forallb (fun e => negb (is_servo e)) (effects_of r) = true
  /\ implb (last_point_sent (state_of r)) (last_point_sent s) = true
  /\ traj (state_of r) = traj s
  /\ (goal_handle (state_of r) = goal_handle s
      \/ goal_handle (state_of r) = None).
Proof.
  assert (I : forall b : bool, implb b b = true) by (now intros []).
  unfold _update. run_method.
  destruct (robot s) as [rb|] eqn:Er; [cbn; auto|].
  destruct (traj s) as [tr|] eqn:Et; [|cbn; auto].
  destruct (getlast (points tr)) as [lastp|e] eqn:El; run_method;
    [|cbn; auto].
  destruct (Qle_bool (now - traj_t0 s) (to_sec (time_from_start lastp))).
  - run_method. cbn.
    destruct (sample_traj tr (now - traj_t0 s)); cbn; auto.
  - destruct (last_point_sent s) eqn:Els; cbn [negb].
    + destruct (goal_handle s) as [g|] eqn:Eg; run_method; cbn;
        rewrite ?Els; auto.
    + rewrite getattr_position. run_method. cbn. rewrite ?Els. auto.
Qed.

(** *** Reachable states can be sampled *)

Lemma state_ok_init (r : option Robot) : state_ok (init r).
Proof.
  split; cbn; [discriminate|congruence].
Qed.

Lemma sample_safe_hold :
  sample_safe
    (mkTraj JOINT_NAMES [mkPoint zeros6 zeros6 zeros6 [] (Duration_of_sec 0)]).
Proof.
  split.
  - eexists. eexists. split; reflexivity.
  - repeat constructor.
Qed.

Lemma state_ok_call (mv : pyfloat) (c : call) (s : State) :
  state_ok s -> state_ok (state_of (run_call mv c s)).
Proof.
  intros [Hsafe Hgoal].
  destruct c as [now|r now|gh now|gh now|now]; cbn [run_call].
  - (* start *)
    split; cbn.
    + intros tr E. injection E as <-. exact sample_safe_hold.
    + discriminate.
  - (* set_robot *)
    unfold set_robot, init_traj_from_robot. run_method.
    destruct (goal_handle s) eqn:Eg, r; run_method;
      (split; cbn;
       [ intros tr E;
         first [discriminate E | injection E as <-; exact sample_safe_hold]
       | intros H;
         first [discriminate
               | exfalso; apply H; first [reflexivity | assumption]] ]).
  - (* on_goal *)
    destruct (on_goal_cases mv gh now s) as [[Ht [Hg _]]|H].
    + split.
      * rewrite Ht. exact Hsafe.
      * rewrite Ht. destruct Hg as [-> | ->]; [exact Hgoal|congruence].
    + destruct H as [tr [p [gt [_ [Hv [Egt [Et [Es [_ [Ht' _]]]]]]]]]].
      split; rewrite Ht'; [|discriminate].
      intros tr' E. injection E as <-.
      destruct (sample_traj_safe tr (now - traj_t0 s) (Hsafe tr Et))
        as [w [Ew Hw]].
      rewrite Es in Ew. injection Ew as <-.
      split.
      * eexists. eexists. split; reflexivity.
      * constructor; [exact Hw|].
        exact (proj2 (reorder_traj_joints_ok _ _ Hv Egt)).
  - (* on_cancel *)
    destruct (same_handle gh (goal_handle s)) eqn:Hsame.
    + destruct (same_handle_active _ _ Hsame) as [g [Eg _]].
      destruct (traj s) as [tr|] eqn:Et.
      2:{ exfalso. apply Hgoal; [congruence|reflexivity]. }
      destruct (sample_traj_safe tr (now - traj_t0 s) (Hsafe tr eq_refl))
        as [p0 [E0 W0]].
      destruct (sample_traj_safe tr (now - traj_t0 s + STOP_DURATION)
                  (Hsafe tr eq_refl)) as [p1 [E1 W1]].
      rewrite (on_cancel_active gh now s tr p0 p1 Hsame Et E0 E1).
      split; cbn; [|discriminate].
      intros tr' E. injection E as <-. split.
      * eexists. eexists. split; reflexivity.
      * destruct W0 as [W0p W0v], W1 as [W1p W1v].
        repeat constructor; assumption.
    + rewrite (on_cancel_other gh now s Hsame). split; assumption.
  - (* _update *)
    destruct (update_never_sends now s) as [_ [_ [Ht Hg]]].
    split; rewrite Ht; [exact Hsafe|].
    destruct Hg as [-> | ->]; [exact Hgoal|congruence].
Qed.

Lemma reachable_ok (mv : pyfloat) (s : State) :
  reachable mv s -> state_ok s.
Proof.
  induction 1; [apply state_ok_init|now apply state_ok_call].
Qed.

(** *** Goal acceptance *)

(** With a robot bound, [on_goal] rejects the goal at its first check and
    changes nothing. *)
Lemma on_goal_bound_rejects (mv : pyfloat) (gh : GoalHandle) (now : Q)
  (s : State) (rb : Robot) :
  robot s = Some rb ->
  on_goal mv gh now s =
  (Normal tt, s,
   [Log "on_goal";
    LogErr "Received a goal, but the robot is not connected";
    SetRejected (goal_id gh) ""]).
Proof.
  intros Er. unfold on_goal. run_method. rewrite Er. reflexivity.
Qed.

(** With no robot bound, no goal is rejected for want of a connection: a
    rejection comes from one of the later checks. *)
Lemma on_goal_unbound_no_connection_report (mv : pyfloat) (gh : GoalHandle)
  (now : Q) (s : State) :
  robot s = None ->
  ~ In (LogErr "Received a goal, but the robot is not connected")
       (effects_of (on_goal mv gh now s)).
Proof.
  intros Er. unfold on_goal. run_method. rewrite Er.
  destruct (same_name_set (joint_names (goal_trajectory gh)) JOINT_NAMES);
    cbn [negb]; [|cbn; intuition discriminate].
  destruct (traj_is_finite (goal_trajectory gh));
    cbn [negb]; [|cbn; intuition discriminate].
  destruct (has_velocities (goal_trajectory gh));
    cbn [negb]; [|cbn; intuition discriminate].
  destruct (has_limited_velocities mv (goal_trajectory gh));
    cbn [negb]; [|cbn; intuition discriminate].
  destruct (reorder_traj_joints (goal_trajectory gh) JOINT_NAMES);
    run_method; [|cbn; intuition discriminate].
  destruct (goal_handle s); run_method; cbn;
    (destruct (traj s) as [tr|]; cbn;
     [destruct (sample_traj tr (now - traj_t0 s)); cbn|]);
    intuition discriminate.
Qed.

(** C1 (the code departs from it).  The follower that [main] builds has no
    robot bound; a goal delivered to it is accepted, not rejected.  The
    same goal delivered with a robot bound is rejected with the "not
    connected" report. *)
Theorem on_goal_connection_check_inverted :
  robot s_started = None
  /\ effects_of (on_goal MAX_VELOCITY goal_A 101 s_started)
     = [Log "on_goal"; SetAccepted 1]
  /\ effects_of (on_goal MAX_VELOCITY goal_A 101
                  (with_robot s_started (Some a_robot)))
     = [Log "on_goal";
        LogErr "Received a goal, but the robot is not connected";
        SetRejected 1 ""].
Proof.
  repeat split; vm_compute; reflexivity.
Qed.

Lemma Qle_bool_self_sub (x : Q) : Qle_bool (x - x) 0 = true.
Proof.
  apply Qle_bool_iff. setoid_replace (x - x) with 0 by ring. apply Qle_refl.
Qed.

(** C2.  When [on_goal] accepts a goal while another goal is active, the
    trajectory it installs begins with a waypoint at time 0 that carries
    the positions, velocities and accelerations of the sample of the
    trajectory active until then, taken at [now - traj_t0]; [traj_t0]
    becomes [now], so that the new trajectory sampled at that instant is
    this waypoint; the goal that was active is canceled. *)
Theorem on_goal_splices_current_setpoint (mv : pyfloat) (gh : GoalHandle)
  (now : Q) (s : State) (old : GoalHandle) :
  goal_handle s = Some old ->
  In (SetAccepted (goal_id gh)) (effects_of (on_goal mv gh now s)) ->
  exists tr p first rest,
    traj s = Some tr
    /\ sample_traj tr (now - traj_t0 s) = Ok p
    /\ traj (state_of (on_goal mv gh now s))
       = Some (mkTraj JOINT_NAMES (first :: rest))
    /\ time_from_start first = 0%Z
    /\ positions first = positions p
    /\ velocities first = velocities p
    /\ accelerations first = accelerations p
    /\ traj_t0 (state_of (on_goal mv gh now s)) = now
    /\ sample_traj (mkTraj JOINT_NAMES (first :: rest))
                   (now - traj_t0 (state_of (on_goal mv gh now s)))
       = Ok first
    /\ In (SetCanceled (goal_id old)) (effects_of (on_goal mv gh now s)).
Proof.
  intros Hold Hacc.
  destruct (on_goal_cases mv gh now s) as [[_ [_ Hno]]|H].
  - exfalso. exact (Hno _ Hacc).
  - destruct H as [tr [p [gt [_ [_ [_ [Et [Es [_ [Ht' [_ [Ht0 Hc]]]]]]]]]]]].
    exists tr, p, (set_time_from_start p 0), (points gt).
    repeat split; auto.
    rewrite Ht0. unfold sample_traj. rewrite Qle_bool_self_sub. reflexivity.
Qed.

Lemma on_goal_splices_current_setpoint_witness :
  exists tr p first rest,
    traj s_active = Some tr
    /\ sample_traj tr (102 - traj_t0 s_active) = Ok p
    /\ traj (state_of (on_goal MAX_VELOCITY goal_B 102 s_active))
       = Some (mkTraj JOINT_NAMES (first :: rest))
    /\ time_from_start first = 0%Z
    /\ positions first = positions p
    /\ velocities first = velocities p
    /\ accelerations first = accelerations p
    /\ traj_t0 (state_of (on_goal MAX_VELOCITY goal_B 102 s_active)) = 102
    /\ sample_traj (mkTraj JOINT_NAMES (first :: rest))
         (102 - traj_t0 (state_of (on_goal MAX_VELOCITY goal_B 102 s_active)))
       = Ok first
    /\ In (SetCanceled 1)
          (effects_of (on_goal MAX_VELOCITY goal_B 102 s_active)).
Proof.
  apply (on_goal_splices_current_setpoint MAX_VELOCITY goal_B 102 s_active
           (mkGoalHandle 1
              (mkTraj JOINT_NAMES
                 [flat_point 0 0 0; flat_point 1 0 2000000000]))).
  - vm_compute. reflexivity.
  - vm_compute. right. right. left. reflexivity.
Defined.

(** *** Cancellation *)

(** C3.  When the goal that is active in a reachable state is canceled, the
    call returns, and the active trajectory becomes two waypoints: the
    first carries the sample of the old trajectory at [now - traj_t0] and
    has time 0; the second carries the positions of the sample half a
    second later, six zero velocities, six zero accelerations and the time
    0.5 s.  The goal is marked canceled and no goal is active any more. *)
Theorem on_cancel_stops_in_two_points (mv : pyfloat) (gh : GoalHandle)
  (now : Q) (s : State) :
  reachable mv s ->
  same_handle gh (goal_handle s) = true ->
  exists tr p0 p1 point0 point1,
    traj s = Some tr
    /\ sample_traj tr (now - traj_t0 s) = Ok p0
    /\ sample_traj tr (now - traj_t0 s + STOP_DURATION) = Ok p1
    /\ outcome_of (on_cancel gh now s) = Normal tt
    /\ traj (state_of (on_cancel gh now s))
       = Some (mkTraj JOINT_NAMES [point0; point1])
    /\ (positions point0 = positions p0
        /\ velocities point0 = velocities p0
        /\ accelerations point0 = accelerations p0
        /\ time_from_start point0 = 0%Z)
    /\ (positions point1 = positions p1
        /\ velocities point1 = repeat (Fin 0) 6
        /\ accelerations point1 = repeat (Fin 0) 6
        /\ to_sec (time_from_start point1) == 1 # 2)
    /\ traj_t0 (state_of (on_cancel gh now s)) = now
    /\ goal_handle (state_of (on_cancel gh now s)) = None
    /\ effects_of (on_cancel gh now s)
       = [Log "on_cancel"; SetCanceled (goal_id gh)].
Proof.
  intros Hreach Hsame.
  destruct (reachable_ok mv s Hreach) as [Hsafe Hgoal].
  destruct (same_handle_active _ _ Hsame) as [g [Eg _]].
  destruct (traj s) as [tr|] eqn:Et.
  2:{ exfalso. apply Hgoal; [congruence|reflexivity]. }
  destruct (sample_traj_safe tr (now - traj_t0 s) (Hsafe tr eq_refl))
    as [p0 [E0 _]].
  destruct (sample_traj_safe tr (now - traj_t0 s + STOP_DURATION)
              (Hsafe tr eq_refl)) as [p1 [E1 _]].
  rewrite (on_cancel_active gh now s tr p0 p1 Hsame Et E0 E1).
  exists tr, p0, p1. eexists. eexists.
  split; [reflexivity|]. split; [exact E0|]. split; [exact E1|].
  split; [reflexivity|]. split; [reflexivity|].
  cbn. repeat split; reflexivity.
Qed.

Lemma s_active_reachable : reachable MAX_VELOCITY s_active.
Proof.
  apply (@reach_call MAX_VELOCITY s_started (OnGoal goal_A 101)).
  apply (@reach_call MAX_VELOCITY (init None) (Start 100)).
  apply reach_init.
Qed.

Lemma on_cancel_stops_in_two_points_witness :
  exists tr p0 p1 point0 point1,
    traj s_active = Some tr
    /\ sample_traj tr (102 - traj_t0 s_active) = Ok p0
    /\ sample_traj tr (102 - traj_t0 s_active + STOP_DURATION) = Ok p1
    /\ outcome_of (on_cancel goal_A 102 s_active) = Normal tt
    /\ traj (state_of (on_cancel goal_A 102 s_active))
       = Some (mkTraj JOINT_NAMES [point0; point1])
    /\ (positions point0 = positions p0
        /\ velocities point0 = velocities p0
        /\ accelerations point0 = accelerations p0
        /\ time_from_start point0 = 0%Z)
    /\ (positions point1 = positions p1
        /\ velocities point1 = repeat (Fin 0) 6
        /\ accelerations point1 = repeat (Fin 0) 6
        /\ to_sec (time_from_start point1) == 1 # 2)
    /\ traj_t0 (state_of (on_cancel goal_A 102 s_active)) = 102
    /\ goal_handle (state_of (on_cancel goal_A 102 s_active)) = None
    /\ effects_of (on_cancel goal_A 102 s_active)
       = [Log "on_cancel"; SetCanceled (goal_id goal_A)].
Proof.
  apply (on_cancel_stops_in_two_points MAX_VELOCITY goal_A 102 s_active).
  - exact s_active_reachable.
  - vm_compute. reflexivity.
Defined.

(** *** The periodic update *)

(** C4 (the code departs from it).  The follower of [main] tracks goal A:
    a tick inside the trajectory's span leaves the last point unsent.  The
    tick at time 104, after the span is over, raises on the read of
    [state.position]: it sends no command and the last point stays
    unsent. *)
Theorem update_last_point_not_sent :
  robot s_tracking = None
  /\ last_point_sent s_tracking = false
  /\ (exists tr lastp,
        traj s_tracking = Some tr
        /\ getlast (points tr) = Ok lastp
        /\ Qle_bool (104 - traj_t0 s_tracking)
                    (to_sec (time_from_start lastp)) = false)
  /\ _update 104 s_tracking = (Raised AttributeError, s_tracking, []).
Proof.
  split; [reflexivity|]. split; [reflexivity|]. split.
  - eexists. eexists. split; [reflexivity|]. split; reflexivity.
  - vm_compute. reflexivity.
Qed.

End FollowerProofs.

(* ------------------------------------------------------------------ *)
(** ** The connection *)

Module ConnectionProofs.
Import Connection ConnectionRun.

Ltac run_method :=
  cbv beta delta [bind tell get put ret raise lift Connection.modify
                  lookup defined
                  state_of effects_of outcome_of trigger_ready_to_program
                  trigger_halted trigger_disconnected] iota;
  cbn [fst snd app robot_state buf last_state keep_running last_hit
       with_buf with_robot_state with_last_state with_keep_running
       with_last_hit].

(** *** Framing *)

Lemma try_extract_short (b : list byte) :
  (List.length b < 48)%nat -> try_extract b = Ok None.
Proof.
  intros H. unfold try_extract.
  destruct (Nat.leb_spec 48 (List.length b)); [lia|reflexivity].
Qed.

Lemma try_extract_some (b p rest : list byte) :
  try_extract b = Ok (Some (p, rest)) ->
  exists n ty,
    unpack_IB b = Ok (n, ty)
    /\ (48 <= List.length b)%nat
    /\ (N.to_nat n <= List.length b)%nat
    /\ p = firstn (N.to_nat n) b
    /\ rest = skipn (N.to_nat n) b
    /\ b = p ++ rest.
Proof.
  unfold try_extract.
  destruct (Nat.leb_spec 48 (List.length b)) as [H48|]; [|discriminate].
  destruct (unpack_IB b) as [[n ty]|]; [|discriminate].
  cbn [rbind].
  destruct (N.leb_spec n (N.of_nat (List.length b))) as [Hn|];
    [|discriminate].
  intros E. injection E as <- <-. exists n, ty.
  repeat split; auto; [lia|]. symmetry. apply firstn_skipn.
Qed.


Lemma drain_stops (g : Globals) (fuel : nat) (rostime : Q) (s : State) :
  try_extract (buf s) = Ok None ->
  drain g (S fuel) rostime s = Some (Normal tt, s, []).
Proof.
  intros H. cbn [drain]. now rewrite H.
Qed.

(** *** One packet *)

(** [__on_packet] does not read the buffer and does not write it,
    whatever the namespace defines. *)
Lemma on_packet_with_buf (g : Globals) (packet b : list byte)
  (rostime : Q) (s : State) :
  on_packet g packet rostime (with_buf s b)
  = (outcome_of (on_packet g packet rostime s),
     with_buf (state_of (on_packet g packet rostime s)) b,
     effects_of (on_packet g packet rostime s)).
Proof.
  destruct g as [u io di do mult an pub rm].
  unfold on_packet, throttle_warn_unknown.
  cbn [g_RobotState g_IOStates g_DigitalIn g_DigitalOut
       g_MULT_analog_robotstate g_Analog g_pub_io_states g_RobotMode].
  destruct u as [unpack|]; run_method; [|reflexivity].
  destruct (real_robot_enabled (robot_mode_data (unpack packet)));
    cbn [negb]; run_method; [|reflexivity].
  destruct io; run_method; [|reflexivity].
  destruct di; run_method; [|reflexivity].
  destruct do; run_method; [|reflexivity].
  destruct mult as [mult|]; run_method; [|reflexivity].
  destruct (checked_div (analog_input0 (masterboard_data (unpack packet)))
              mult); run_method; [|reflexivity].
  destruct an; run_method; [|reflexivity].
  repeat match goal with
         | |- context [checked_div ?a ?b] =>
             destruct (checked_div a b); run_method; [|reflexivity]
         end.
  destruct pub; run_method; [|reflexivity].
  destruct rm as [modes|]; run_method; [|reflexivity].
  destruct (robot_state s);
    destruct (can_execute modes (unpack packet));
    cbn [negb]; run_method;
    destruct (0 <? List.length (unknown_ptypes (unpack packet)))%nat;
    run_method;
    try match goal with
        | |- context [Qle_bool ?a ?b] => destruct (Qle_bool a b)
        end;
    run_method; reflexivity.
Qed.

Lemma on_packet_frame (g : Globals) (packet : list byte) (rostime : Q)
  (s : State) :
  buf (state_of (on_packet g packet rostime s)) = buf s.
Proof.
  destruct s as [b r l k h].
  change (mkState b r l k h) with (with_buf (mkState b r l k h) b) at 1.
  rewrite on_packet_with_buf. reflexivity.
Qed.

(** As [driver.py] stands, the first statement of [__on_packet] fails:
    the name [RobotState] is not defined.  Nothing is stored, logged or
    published, and the connection is as it was. *)
Lemma on_packet_name_error (packet : list byte) (rostime : Q) (s : State) :
  on_packet driver_globals packet rostime s
  = (Raised (NameError "RobotState"), s, []).
Proof. reflexivity. Qed.

(** *** The read loop *)

Lemma unpack_IB_app (frame trailing : list byte) (n ty : N) :
  unpack_IB frame = Ok (n, ty) ->
  unpack_IB (frame ++ trailing) = Ok (n, ty).
Proof.
  destruct frame as [|b0 [|b1 [|b2 [|b3 [|b4 frame]]]]]; try discriminate.
  intros H. exact H.
Qed.

Lemma firstn_length_app {A} (l l' : list A) :
  firstn (List.length l) (l ++ l') = l.
Proof.
  induction l as [|a l IH]; [reflexivity|]. simpl. now rewrite IH.
Qed.

Lemma skipn_length_app {A} (l l' : list A) :
  skipn (List.length l) (l ++ l') = l'.
Proof.
  induction l as [|a l IH]; [reflexivity|]. simpl. exact IH.
Qed.

Lemma run_turn_nonempty (g : Globals) (fuel : nat) (rostime : Q)
  (more : list byte) (s : State) :
  more <> [] ->
  run_turn g fuel rostime (Some more) s
  = drain g fuel rostime (with_buf s (buf s ++ more)).
Proof.
  intros H. destruct more; [congruence|reflexivity].
Qed.




(** C10.  A packet is cut off the buffer only when the buffer holds at
    least 48 bytes.  So when a read leaves fewer than 48 bytes in the
    buffer, a complete frame of a declared length below 48 among them is
    not decoded: the read only extends the buffer. *)
Theorem read_loop_waits_for_48_bytes (g : Globals) :
  (forall b p rest : list byte,
      try_extract b = Ok (Some (p, rest)) -> (48 <= List.length b)%nat)
  /\ (forall (fuel : nat) (rostime : Q) (s : State) (more : list byte)
             (n ty : N),
        more <> [] ->
        unpack_IB (buf s ++ more) = Ok (n, ty) ->
        (N.to_nat n <= List.length (buf s ++ more))%nat ->
        (N.to_nat n < 48)%nat ->
        (List.length (buf s ++ more) < 48)%nat ->
        run_turn g (S fuel) rostime (Some more) s
        = Some (Normal tt, with_buf s (buf s ++ more), [])).
Proof.
  split.
  - intros b p rest H.
    destruct (try_extract_some b p rest H) as [n [ty [_ [H48 _]]]].
    exact H48.
  - intros fuel rostime s more n ty Hne _ _ _ Hlen.
    rewrite (run_turn_nonempty g _ rostime more s Hne).
    apply drain_stops. apply try_extract_short. exact Hlen.
Qed.

Lemma read_loop_waits_for_48_bytes_witness :
  run_turn driver_globals 1 0 (Some frame10) connected
  = Some (Normal tt, with_buf connected (buf connected ++ frame10), []).
Proof.
  apply (proj2 (read_loop_waits_for_48_bytes driver_globals)
           0%nat 0 connected frame10 10%N 16%N).
  - discriminate.
  - reflexivity.
  - vm_compute. lia.
  - vm_compute. lia.
  - vm_compute. lia.
Defined.

(** *** The state machine *)

Lemma on_packets_name_error (p : list byte) (ps : list (list byte))
  (rostime : Q) (s : State) :
  on_packets driver_globals (p :: ps) rostime s
  = (Raised (NameError "RobotState"), s, []).
Proof. reflexivity. Qed.

(** C7 (code bug).  The state machine of lines 323-335 steps from
    [CONNECTED] to [READY_TO_PROGRAM] on a packet whose mode is
    [RobotMode.READY] or [RobotMode.RUNNING], but [__on_packet] does not
    get there: [driver.py] neither defines nor imports [RobotState], so
    the first statement raises [NameError] on every packet.  Whatever
    three packets arrive from [CONNECTED], the first one ends the read
    thread, the connection stays [CONNECTED] and the "ready to program"
    trigger does not fire. *)
Theorem ready_running_ready_never_ready (p1 p2 p3 : list byte)
  (rostime : Q) :
  on_packets driver_globals [p1; p2; p3] rostime connected
  = (Raised (NameError "RobotState"), connected, [])
  /\ robot_state
       (state_of (on_packets driver_globals [p1; p2; p3] rostime connected))
     = CONNECTED
  /\ ready_triggers
       (effects_of
          (on_packets driver_globals [p1; p2; p3] rostime connected))
     = 0%nat.
Proof.
  rewrite on_packets_name_error. repeat split.
Qed.

End ConnectionProofs.

(* ------------------------------------------------------------------ *)
(** ** Further properties of the interpolator *)

Module InterpolatorFacts.

Lemma feq_refl (x : pyfloat) : feq x x.
Proof. destruct x; simpl; auto. reflexivity. Qed.

Lemma Forall2_feq_refl (l : list pyfloat) : Forall2 feq l l.
Proof. induction l; constructor; auto using feq_refl. Qed.

Lemma agree_refl (p : JointTrajectoryPoint) : agree_to_first_order p p.
Proof. split; apply Forall2_feq_refl. Qed.



(** *** Which segment a sample comes from *)




(** *** Failure and shape of the cubic *)




Lemma setitem_ok {A} (l l' : list A) (i : nat) (v : A) :
  setitem l i v = Ok l' ->
  (i < List.length l)%nat /\ List.length l' = List.length l.
Proof.
  revert i l'. induction l as [|a l IH]; intros i l' H; [discriminate|].
  destruct i as [|i]; cbn in H.
  - injection H as <-. cbn. split; [lia|reflexivity].
  - destruct (setitem l i v) as [r|] eqn:E; [|discriminate].
    injection H as <-. destruct (IH i r E) as [Hi Hl].
    cbn. split; [lia|now rewrite Hl].
Qed.

Lemma interp_joint_ok (p0 p1 : JointTrajectoryPoint) (T t : Q)
  (acc acc' : list pyfloat * list pyfloat * list pyfloat) (i : nat) :
  triple_len acc ->
  interp_joint p0 p1 T t acc i = Ok acc' ->
  (i < 6)%nat /\ triple_len acc'.
Proof.
  destruct acc as [[q qd] qdd]. intros [Lq [Lqd Lqdd]].
  unfold interp_joint.
  destruct (getitem (positions p0) i); [|discriminate]. cbn [rbind].
  destruct (getitem (velocities p0) i); [|discriminate]. cbn [rbind].
  destruct (getitem (positions p1) i); [|discriminate]. cbn [rbind].
  destruct (getitem (velocities p1) i); [|discriminate]. cbn [rbind].
  match goal with |- context [fdiv ?n ?d] =>
    destruct (fdiv n d); [|discriminate] end. cbn [rbind].
  match goal with |- context [fdiv ?n ?d] =>
    destruct (fdiv n d); [|discriminate] end. cbn [rbind].
  match goal with |- context [setitem q i ?v] =>
    destruct (setitem q i v) as [q'|] eqn:Eq; [|discriminate] end.
  cbn [rbind].
  match goal with |- context [setitem qd i ?v] =>
    destruct (setitem qd i v) as [qd'|] eqn:Eqd; [|discriminate] end.
  cbn [rbind].
  match goal with |- context [setitem qdd i ?v] =>
    destruct (setitem qdd i v) as [qdd'|] eqn:Eqdd; [|discriminate] end.
  cbn [rbind]. intros H. injection H as <-.
  apply setitem_ok in Eq, Eqd, Eqdd. cbn. lia.
Qed.

Lemma interp_loop_ok (p0 p1 : JointTrajectoryPoint) (T t : Q)
  (idxs : list nat) :
  forall acc acc', triple_len acc ->
  interp_loop p0 p1 T t idxs acc = Ok acc' ->
  Forall (fun i => (i < 6)%nat) idxs /\ triple_len acc'.
Proof.
  induction idxs as [|i idxs IH]; intros acc acc' Hacc H.
  - cbn in H. injection H as <-. split; [constructor|exact Hacc].
  - cbn [interp_loop] in H.
    destruct (interp_joint p0 p1 T t acc i) as [acc1|] eqn:E;
      [|discriminate].
    cbn [rbind] in H.
    destruct (interp_joint_ok p0 p1 T t acc acc1 i Hacc E) as [Hi H1].
    destruct (IH acc1 acc' H1 H) as [Hall H2].
    split; [constructor; assumption|exact H2].
Qed.

(** X6.  Whenever [interp_cubic] returns, the first waypoint has at most
    six positions, and the result has exactly six positions, six velocities
    and six accelerations, no effort, and the time it was asked for (as a
    duration).  With more than six positions it raises. *)
Theorem interp_cubic_result_shape (p0 p1 w : JointTrajectoryPoint)
  (t_abs : Q) :
  interp_cubic p0 p1 t_abs = Ok w ->
  (List.length (positions p0) <= 6)%nat
  /\ List.length (positions w) = 6%nat
  /\ List.length (velocities w) = 6%nat
  /\ List.length (accelerations w) = 6%nat
  /\ effort w = []
  /\ time_from_start w = Duration_of_sec t_abs.
Proof.
  unfold interp_cubic.
  match goal with |- context [interp_loop ?a ?b ?T ?t ?l ?acc] =>
    destruct (interp_loop a b T t l acc) as [[[q qd] qdd]|] eqn:E;
      [|discriminate] end.
  cbn [rbind]. intros H. injection H as <-. cbn.
  apply interp_loop_ok in E as [Hall [Lq [Lqd Lqdd]]];
    [|cbn; repeat split; reflexivity].
  repeat split; auto.
  destruct (positions p0) as [|x l] eqn:Ep; [cbn; lia|].
  rewrite Forall_forall in Hall.
  specialize (Hall (List.length l)).
  assert (Hin : In (List.length l) (seq 0 (List.length (x :: l)))).
  { apply in_seq. cbn. lia. }
  specialize (Hall Hin). cbn. lia.
Qed.

Lemma interp_cubic_result_shape_witness :
  exists w,
    interp_cubic (flat_point 0 0 0) (flat_point 1 0 2000000000) 1 = Ok w
    /\ (List.length (positions (flat_point 0 0 0)) <= 6)%nat
    /\ List.length (positions w) = 6%nat
    /\ List.length (velocities w) = 6%nat
    /\ List.length (accelerations w) = 6%nat
    /\ effort w = []
    /\ time_from_start w = Duration_of_sec 1.
Proof.
  eexists. split; [vm_compute; reflexivity|].
  apply (interp_cubic_result_shape
           (flat_point 0 0 0) (flat_point 1 0 2000000000) _ 1).
  vm_compute. reflexivity.
Defined.

End InterpolatorFacts.

(* ------------------------------------------------------------------ *)
(** ** Further properties of the interpolation loop in binary64 *)

Module Binary64Facts.
Import PrimFloat SpecFloat FloatOps FloatAxioms Binary64 Binary64Proofs.

Local Open Scope float_scope.



















End Binary64Facts.

(* ------------------------------------------------------------------ *)
(** ** Further properties of goal validation and reordering *)

Module ValidationFacts.
Import Follower FollowerRun FollowerProofs.

Lemma mapR_nth {A B} (f : A -> result B) (l : list A) (r : list B) :
  mapR f l = Ok r ->
  forall k a, nth_error l k = Some a ->
  exists b, f a = Ok b /\ nth_error r k = Some b.
Proof.
  revert r. induction l as [|x l IH]; intros r H k a Hk;
    [destruct k; discriminate|].
  cbn in H. destruct (f x) as [y|] eqn:Ex; [|discriminate].
  destruct (mapR f l) as [ys|] eqn:El; [|discriminate].
  injection H as <-. destruct k as [|k].
  - cbn in Hk. injection Hk as <-. exists y. now split.
  - cbn in Hk. exact (IH ys eq_refl k a Hk).
Qed.

Lemma mapR_raise {A B} (f : A -> result B) (l : list A) (e : exn) :
  mapR f l = Raise e -> exists a, In a l /\ f a = Raise e.
Proof.
  induction l as [|x l IH]; [discriminate|]. cbn.
  destruct (f x) as [y|e'] eqn:Ex.
  - destruct (mapR f l) as [ys|e''] eqn:El; [discriminate|].
    intros H. injection H as ->. destruct (IH eq_refl) as [a [Hin Ha]].
    exists a. split; [now right|exact Ha].
  - intros H. injection H as ->. exists x. split; [now left|exact Ex].
Qed.

Lemma index_of_nth (l : list string) (x : string) (j : nat) :
  index_of l x = Ok j -> nth_error l j = Some x.
Proof.
  revert j. induction l as [|y l IH]; intros j; [discriminate|]. cbn.
  destruct (String.eqb_spec y x) as [->|Hne].
  - intros H. injection H as <-. reflexivity.
  - destruct (index_of l x) as [n|]; [|discriminate].
    intros H. injection H as <-. cbn. now apply IH.
Qed.

Lemma index_of_mem (l : list string) (x : string) :
  mem_string x l = true -> exists j, index_of l x = Ok j.
Proof.
  induction l as [|y l IH]; [discriminate|]. cbn.
  rewrite String.eqb_sym.
  destruct (String.eqb y x); [eauto|]. cbn. intros H.
  destruct (IH H) as [j ->]. eauto.
Qed.

Lemma index_of_raises (l : list string) (x : string) (e : exn) :
  index_of l x = Raise e -> e = ValueError /\ mem_string x l = false.
Proof.
  induction l as [|y l IH]; cbn.
  - intros H. injection H as <-. now split.
  - rewrite (String.eqb_sym x y).
    destruct (String.eqb y x); [discriminate|]. cbn.
    destruct (index_of l x); [discriminate|].
    intros H. injection H as <-. now apply IH.
Qed.

(** X8.  What [reorder_traj_joints] returns carries the requested joint
    names and as many waypoints as before; each waypoint keeps its time,
    loses its effort, and at the place of every requested joint holds the
    position, and where velocities were given the velocity, that the input
    had for the joint of that name. *)
Theorem reorder_keeps_joint_values (tr tr' : JointTrajectory)
  (names : list string) :
  reorder_traj_joints tr names = Ok tr' ->
  joint_names tr' = names
  /\ List.length (points tr') = List.length (points tr)
  /\ forall i p, nth_error (points tr) i = Some p ->
     exists p',
       nth_error (points tr') i = Some p'
       /\ time_from_start p' = time_from_start p
       /\ effort p' = []
       /\ forall k name, nth_error names k = Some name ->
          exists j x,
            nth_error (joint_names tr) j = Some name
            /\ nth_error (positions p) j = Some x
            /\ nth_error (positions p') k = Some x
            /\ (velocities p <> [] ->
                exists v, nth_error (velocities p) j = Some v
                          /\ nth_error (velocities p') k = Some v).
Proof.
  unfold reorder_traj_joints.
  destruct (mapR (index_of (joint_names tr)) names) as [order|] eqn:Eo;
    [|discriminate].
  cbn [rbind].
  destruct (mapR (reorder_point order) (points tr)) as [pts|] eqn:Ep;
    [|discriminate].
  cbn [rbind]. intros H. injection H as <-. cbn [joint_names points].
  split; [reflexivity|]. split; [exact (mapR_length _ _ _ Ep)|].
  intros i p Hi.
  destruct (mapR_nth _ _ _ Ep i p Hi) as [p' [Hp' Hn]].
  exists p'. split; [exact Hn|].
  unfold reorder_point in Hp'.
  destruct (mapR (getitem (positions p)) order) as [pos|] eqn:Epos;
    [|discriminate].
  cbn [rbind] in Hp'.
  destruct (if is_empty (velocities p) then Ok []
            else mapR (getitem (velocities p)) order) as [vel|] eqn:Evel;
    [|discriminate].
  cbn [rbind] in Hp'.
  destruct (if is_empty (accelerations p) then Ok []
            else mapR (getitem (accelerations p)) order) as [acc|];
    [|discriminate].
  cbn [rbind] in Hp'. injection Hp' as <-. cbn.
  split; [reflexivity|]. split; [reflexivity|].
  intros k name Hk.
  destruct (mapR_nth _ _ _ Eo k name Hk) as [j [Hj Hoj]].
  destruct (mapR_nth _ _ _ Epos k j Hoj) as [x [Hx Hpk]].
  exists j, x. split; [exact (index_of_nth _ _ _ Hj)|].
  unfold getitem in Hx.
  destruct (nth_error (positions p) j) as [x'|] eqn:Ex; [|discriminate].
  injection Hx as ->. repeat split; auto.
  intros Hv. destruct (velocities p) as [|v0 vs] eqn:Ev; [congruence|].
  cbn [is_empty] in Evel.
  destruct (mapR_nth _ _ _ Evel k j Hoj) as [v [Hv' Hvk]].
  exists v. split; [|exact Hvk].
  unfold getitem in Hv'.
  destruct (nth_error (v0 :: vs) j); [|discriminate]. now injection Hv' as ->.
Qed.

Lemma reorder_keeps_joint_values_witness :
  joint_names
    (mkTraj JOINT_NAMES
       [mkPoint [Fin 1; Fin 2; Fin 3; Fin 4; Fin 5; Fin 6] (const6 0) [] []
                3000000000]) = JOINT_NAMES
  /\ List.length
       (points
          (mkTraj JOINT_NAMES
             [mkPoint [Fin 1; Fin 2; Fin 3; Fin 4; Fin 5; Fin 6] (const6 0)
                      [] [] 3000000000]))
     = List.length (points (goal_trajectory goal_B))
  /\ forall i p, nth_error (points (goal_trajectory goal_B)) i = Some p ->
     exists p',
       nth_error
         (points
            (mkTraj JOINT_NAMES
               [mkPoint [Fin 1; Fin 2; Fin 3; Fin 4; Fin 5; Fin 6] (const6 0)
                        [] [] 3000000000])) i = Some p'
       /\ time_from_start p' = time_from_start p
       /\ effort p' = []
       /\ forall k name, nth_error JOINT_NAMES k = Some name ->
          exists j x,
            nth_error (joint_names (goal_trajectory goal_B)) j = Some name
            /\ nth_error (positions p) j = Some x
            /\ nth_error (positions p') k = Some x
            /\ (velocities p <> [] ->
                exists v, nth_error (velocities p) j = Some v
                          /\ nth_error (velocities p') k = Some v).
Proof.
  apply (reorder_keeps_joint_values (goal_trajectory goal_B)
           (mkTraj JOINT_NAMES
              [mkPoint [Fin 1; Fin 2; Fin 3; Fin 4; Fin 5; Fin 6] (const6 0)
                       [] [] 3000000000])
           JOINT_NAMES).
  reflexivity.
Defined.

(** *** Reordering twice *)

Lemma index_of_app_fresh (pre l : list string) (x : string) :
  ~ In x pre -> index_of (pre ++ x :: l) x = Ok (List.length pre).
Proof.
  induction pre as [|y pre IH]; intros Hn; cbn.
  - now rewrite String.eqb_refl.
  - destruct (String.eqb_spec y x) as [->|_].
    + exfalso. apply Hn. now left.
    + rewrite IH; [reflexivity|]. intros H. apply Hn. now right.
Qed.

Lemma index_of_own_names (l : list string) :
  forall pre, NoDup (pre ++ l) ->
  mapR (index_of (pre ++ l)) l = Ok (seq (List.length pre) (List.length l)).
Proof.
  induction l as [|x l IH]; intros pre Hnd; [reflexivity|].
  cbn [mapR List.length seq].
  rewrite index_of_app_fresh.
  2:{ apply NoDup_remove_2 in Hnd. intros H. apply Hnd.
      apply in_or_app. now left. }
  replace (pre ++ x :: l) with ((pre ++ [x]) ++ l) in *
    by (rewrite <- app_assoc; reflexivity).
  rewrite (IH (pre ++ [x]) Hnd), length_app. cbn [List.length].
  replace (List.length pre + 1)%nat with (S (List.length pre)) by lia.
  reflexivity.
Qed.

Lemma getitem_own_indices {A} (l : list A) :
  forall pre,
  mapR (getitem (pre ++ l)) (seq (List.length pre) (List.length l)) = Ok l.
Proof.
  induction l as [|x l IH]; intros pre; [reflexivity|].
  cbn [List.length seq mapR].
  unfold getitem at 1. rewrite nth_error_app2, Nat.sub_diag by lia.
  cbn [nth_error].
  replace (pre ++ x :: l) with ((pre ++ [x]) ++ l)
    by (rewrite <- app_assoc; reflexivity).
  specialize (IH (pre ++ [x])). rewrite length_app in IH.
  cbn [List.length] in IH.
  replace (List.length pre + 1)%nat with (S (List.length pre)) in IH by lia.
  now rewrite IH.
Qed.

Lemma mapR_fixed {A} (f : A -> result A) (l : list A) :
  Forall (fun a => f a = Ok a) l -> mapR f l = Ok l.
Proof.
  induction 1 as [|a l Ha _ IH]; [reflexivity|].
  cbn. now rewrite Ha, IH.
Qed.

Lemma reorder_point_again (order : list nat) (p p' : JointTrajectoryPoint) :
  reorder_point order p = Ok p' ->
  reorder_point (seq 0 (List.length order)) p' = Ok p'.
Proof.
  unfold reorder_point at 1.
  destruct (mapR (getitem (positions p)) order) as [pos|] eqn:Epos;
    [|discriminate].
  cbn [rbind].
  destruct (if is_empty (velocities p) then Ok []
            else mapR (getitem (velocities p)) order) as [vel|] eqn:Evel;
    [|discriminate].
  cbn [rbind].
  destruct (if is_empty (accelerations p) then Ok []
            else mapR (getitem (accelerations p)) order) as [acc|] eqn:Eacc;
    [|discriminate].
  cbn [rbind]. intros H. injection H as <-.
  assert (Hlist : forall (src out : list pyfloat),
             (if is_empty src then Ok []
              else mapR (getitem src) order) = Ok out ->
             (if is_empty out then Ok []
              else mapR (getitem out) (seq 0 (List.length order))) = Ok out).
  { intros src out H. destruct out as [|o out]; [reflexivity|].
    cbn [is_empty]. destruct src as [|x src]; [discriminate H|].
    cbn [is_empty] in H. apply mapR_length in H. rewrite <- H.
    exact (getitem_own_indices (o :: out) []). }
  unfold reorder_point. cbn [positions velocities accelerations
                             time_from_start].
  apply mapR_length in Epos. rewrite <- Epos.
  pose proof (getitem_own_indices pos []) as Hpos.
  cbn [app List.length] in Hpos. rewrite Hpos. cbn [rbind].
  rewrite Epos, (Hlist _ _ Evel), (Hlist _ _ Eacc). reflexivity.
Qed.

(** X9.  Reordering is idempotent: when the requested joint names are
    pairwise different, reordering the result of a reordering by the same
    names returns it unchanged. *)
Theorem reorder_traj_joints_idempotent (tr tr' : JointTrajectory)
  (names : list string) :
  NoDup names ->
  reorder_traj_joints tr names = Ok tr' ->
  reorder_traj_joints tr' names = Ok tr'.
Proof.
  intros Hnd. unfold reorder_traj_joints at 1.
  destruct (mapR (index_of (joint_names tr)) names) as [order|] eqn:Eo;
    [|discriminate].
  cbn [rbind].
  destruct (mapR (reorder_point order) (points tr)) as [pts|] eqn:Ep;
    [|discriminate].
  cbn [rbind]. intros H. injection H as <-.
  unfold reorder_traj_joints. cbn [joint_names points].
  pose proof (index_of_own_names names [] Hnd) as Hown.
  cbn [app List.length] in Hown. rewrite Hown. cbn [rbind].
  apply mapR_length in Eo. rewrite <- Eo.
  rewrite mapR_fixed; [reflexivity|].
  eapply mapR_Forall; [|exact Ep].
  intros p p' _ Hp. exact (reorder_point_again order p p' Hp).
Qed.

Lemma JOINT_NAMES_NoDup : NoDup JOINT_NAMES.
Proof.
  repeat constructor; cbn; intuition discriminate.
Qed.

Lemma reorder_traj_joints_idempotent_witness :
  reorder_traj_joints
    (mkTraj JOINT_NAMES
       [mkPoint [Fin 1; Fin 2; Fin 3; Fin 4; Fin 5; Fin 6] (const6 0) [] []
                3000000000])
    JOINT_NAMES
  = Ok (mkTraj JOINT_NAMES
          [mkPoint [Fin 1; Fin 2; Fin 3; Fin 4; Fin 5; Fin 6] (const6 0) []
                   [] 3000000000]).
Proof.
  apply (reorder_traj_joints_idempotent (goal_trajectory goal_B) _
           JOINT_NAMES JOINT_NAMES_NoDup).
  reflexivity.
Defined.

End ValidationFacts.

(* ------------------------------------------------------------------ *)
(** ** Further properties of the follower *)

Module FollowerFacts.
Import Follower FollowerRun FollowerData FollowerProofs ValidationFacts.

(** Every path through [on_goal], with the tests that lead to it recorded
    as equations. *)
Ltac on_goal_paths mv gh now s :=
  unfold on_goal; run_method;
  destruct (robot s) as [?rb|] eqn:Er;
  [ run_method
  | destruct (same_name_set (joint_names (goal_trajectory gh)) JOINT_NAMES)
      eqn:En; cbn [negb];
    [ destruct (traj_is_finite (goal_trajectory gh)) eqn:Ef; cbn [negb];
      [ destruct (has_velocities (goal_trajectory gh)) eqn:Ev; cbn [negb];
        [ destruct (has_limited_velocities mv (goal_trajectory gh)) eqn:El;
          cbn [negb];
          [ destruct (reorder_traj_joints (goal_trajectory gh) JOINT_NAMES)
              as [?gt|?e] eqn:Egt; run_method;
            [ destruct (goal_handle s) as [?old|] eqn:Eg; run_method; cbn;
              (destruct (traj s) as [?tr|] eqn:Et; cbn;
               [ destruct (sample_traj tr (now - traj_t0 s)) as [?p|?e]
                   eqn:Es; cbn
               | ])
            | ]
          | run_method ]
        | run_method ]
      | run_method ]
    | run_method ] ].

(** X10.  A goal that [on_goal] rejects leaves the follower exactly as it
    was: the call returns, the state is unchanged, and nothing is canceled
    or accepted. *)
Theorem on_goal_rejection_changes_nothing (mv : pyfloat) (gh : GoalHandle)
  (now : Q) (s : State) (g : nat) (text : string) :
  In (SetRejected g text) (effects_of (on_goal mv gh now s)) ->
  g = goal_id gh
  /\ outcome_of (on_goal mv gh now s) = Normal tt
  /\ state_of (on_goal mv gh now s) = s
  /\ forall e, In e (effects_of (on_goal mv gh now s)) ->
               match e with
               | SetCanceled _ | SetAccepted _ => False
               | _ => True
               end.
Proof.
  on_goal_paths mv gh now s; cbn; intros H;
    repeat (destruct H as [H|H]; try discriminate H);
    try contradiction;
    injection H as <- _;
    (repeat split; auto;
     intros e' He; cbn in He;
     repeat (destruct He as [He|He]; [subst e'; exact I|]);
     contradiction).
Qed.

Lemma on_goal_rejection_changes_nothing_witness :
  4%nat = goal_id goal_too_fast
  /\ outcome_of (on_goal MAX_VELOCITY goal_too_fast 102 s_active) = Normal tt
  /\ state_of (on_goal MAX_VELOCITY goal_too_fast 102 s_active) = s_active
  /\ forall e,
       In e (effects_of (on_goal MAX_VELOCITY goal_too_fast 102 s_active)) ->
       match e with
       | SetCanceled _ | SetAccepted _ => False
       | _ => True
       end.
Proof.
  apply (on_goal_rejection_changes_nothing MAX_VELOCITY goal_too_fast 102
           s_active 4
           "Received a goal with velocities that are higher than max_velocity").
  vm_compute. right. right. left. reflexivity.
Defined.

(** *** What an accepted goal looks like *)

Lemma finite_check (x : pyfloat) :
  negb (isinf x || isnan x) = true -> is_finite x = true.
Proof. now destruct x. Qed.

Lemma getitem_from {A} (P : A -> Prop) (l : list A) (order : list nat)
  (r : list A) :
  Forall P l -> mapR (getitem l) order = Ok r -> Forall P r.
Proof.
  intros Hl. apply mapR_Forall. intros j b _ Hb.
  unfold getitem in Hb. destruct (nth_error l j) eqn:E; [|discriminate].
  injection Hb as <-. rewrite Forall_forall in Hl.
  apply Hl. eapply nth_error_In. exact E.
Qed.

Lemma reorder_point_validated (mv : pyfloat) (order : list nat)
  (p p' : JointTrajectoryPoint) :
  List.length order = 6%nat ->
  List.length (velocities p) = List.length (positions p) ->
  all_finite (positions p) -> all_finite (velocities p) ->
  Forall (within_limit mv) (velocities p) ->
  reorder_point order p = Ok p' ->
  validated_waypoint mv p'.
Proof.
  intros Lo Lv Fp Fv Fl Hp.
  destruct (reorder_point_ok order p p' Lo Lv Hp) as [Hok _].
  unfold reorder_point in Hp.
  destruct (mapR (getitem (positions p)) order) as [pos|] eqn:Epos;
    [|discriminate].
  cbn [rbind] in Hp.
  destruct (velocities p) as [|v vs] eqn:Evs.
  { exfalso. destruct Hok as [_ Hv]. cbn [is_empty rbind] in Hp.
    destruct (if is_empty (accelerations p) then Ok []
              else mapR (getitem (accelerations p)) order);
      [|discriminate].
    cbn [rbind] in Hp. injection Hp as <-. discriminate Hv. }
  cbn [is_empty] in Hp.
  destruct (mapR (getitem (v :: vs)) order) as [vel|] eqn:Evel;
    [|discriminate].
  cbn [rbind] in Hp.
  destruct (if is_empty (accelerations p) then Ok []
            else mapR (getitem (accelerations p)) order);
    [|discriminate].
  cbn [rbind] in Hp. injection Hp as <-.
  split; [split; [exact Hok|]|]; cbn.
  - split.
    + exact (getitem_from _ _ _ _ Fp Epos).
    + exact (getitem_from _ _ _ _ Fv Evel).
  - exact (getitem_from _ _ _ _ Fl Evel).
Qed.

(** X11.  A goal is accepted only after every check: the trajectory that
    [on_goal] installs consists of a head waypoint followed by the goal's
    waypoints, each with six finite positions and six finite velocities
    that do not exceed [max_velocity] in magnitude, and each with the time
    the goal gave it. *)
Theorem accepted_goal_is_validated (mv : pyfloat) (gh : GoalHandle)
  (now : Q) (s : State) (g : nat) :
  In (SetAccepted g) (effects_of (on_goal mv gh now s)) ->
  exists first rest,
    traj (state_of (on_goal mv gh now s))
    = Some (mkTraj JOINT_NAMES (first :: rest))
    /\ Forall (validated_waypoint mv) rest
    /\ map time_from_start rest
       = map time_from_start (points (goal_trajectory gh)).
Proof.
  intros Hacc.
  destruct (on_goal_cases mv gh now s) as [[_ [_ Hno]]|H].
  { exfalso. exact (Hno g Hacc). }
  destruct H as [tr [p [gt [_ [Hv [Egt [_ [_ [_ [Ht' _]]]]]]]]]].
  exists (set_time_from_start p 0), (points gt).
  split; [exact Ht'|].
  assert (Hchecks : traj_is_finite (goal_trajectory gh) = true
                    /\ has_limited_velocities mv (goal_trajectory gh) = true).
  { revert Hacc. clear.
    on_goal_paths mv gh now s; cbn; intros H;
      repeat (destruct H as [H|H]; try discriminate H);
      try contradiction; split; reflexivity. }
  destruct Hchecks as [Hf Hl].
  unfold reorder_traj_joints in Egt.
  destruct (mapR (index_of (joint_names (goal_trajectory gh))) JOINT_NAMES)
    as [order|] eqn:Eo; [|discriminate].
  cbn [rbind] in Egt.
  destruct (mapR (reorder_point order) (points (goal_trajectory gh)))
    as [pts|] eqn:Ep; [|discriminate].
  cbn [rbind] in Egt. injection Egt as <-. cbn [points].
  apply mapR_length in Eo.
  unfold traj_is_finite in Hf. unfold has_limited_velocities in Hl.
  unfold has_velocities in Hv.
  rewrite forallb_forall in Hf, Hl, Hv.
  split.
  - eapply mapR_Forall; [|exact Ep].
    intros q q' Hin Hq.
    specialize (Hf q Hin). specialize (Hl q Hin). specialize (Hv q Hin).
    apply andb_true_iff in Hf as [Hfp Hfv].
    rewrite forallb_forall in Hfp, Hfv, Hl. apply Nat.eqb_eq in Hv.
    apply (reorder_point_validated mv order q q' Eo Hv); auto.
    + apply Forall_forall. intros x Hx. apply finite_check. now apply Hfp.
    + apply Forall_forall. intros x Hx. apply finite_check. now apply Hfv.
    + apply Forall_forall. intros x Hx. unfold within_limit.
      apply negb_true_iff. now apply Hl.
  - clear - Ep. revert pts Ep.
    induction (points (goal_trajectory gh)) as [|q l IH]; intros pts Ep.
    + cbn in Ep. now injection Ep as <-.
    + cbn in Ep. destruct (reorder_point order q) as [q'|] eqn:Eq;
        [|discriminate].
      destruct (mapR (reorder_point order) l) as [l'|] eqn:El;
        [|discriminate].
      injection Ep as <-. cbn. rewrite (IH l' eq_refl). f_equal.
      unfold reorder_point in Eq.
      destruct (mapR (getitem (positions q)) order); [|discriminate].
      cbn [rbind] in Eq.
      destruct (if is_empty (velocities q) then Ok []
                else mapR (getitem (velocities q)) order); [|discriminate].
      cbn [rbind] in Eq.
      destruct (if is_empty (accelerations q) then Ok []
                else mapR (getitem (accelerations q)) order);
        [|discriminate].
      cbn [rbind] in Eq. now injection Eq as <-.
Qed.

Lemma accepted_goal_is_validated_witness :
  exists first rest,
    traj (state_of (on_goal MAX_VELOCITY goal_B 102 s_active))
    = Some (mkTraj JOINT_NAMES (first :: rest))
    /\ Forall (validated_waypoint MAX_VELOCITY) rest
    /\ map time_from_start rest
       = map time_from_start (points (goal_trajectory goal_B)).
Proof.
  apply (accepted_goal_is_validated MAX_VELOCITY goal_B 102 s_active 2).
  vm_compute. right. right. left. reflexivity.
Defined.

(** *** A waypoint with too few joints *)

Lemma mapR_In {A B} (f : A -> result B) (l : list A) (r : list B) (b : B) :
  mapR f l = Ok r -> In b r -> exists a, In a l /\ f a = Ok b.
Proof.
  revert r. induction l as [|x l IH]; intros r H Hb.
  - cbn in H. injection H as <-. contradiction.
  - cbn in H. destruct (f x) as [y|] eqn:Ex; [|discriminate].
    destruct (mapR f l) as [ys|] eqn:El; [|discriminate].
    injection H as <-. destruct Hb as [<-|Hb].
    + exists x. split; [now left|exact Ex].
    + destruct (IH ys eq_refl Hb) as [a [Ha Hf]].
      exists a. split; [now right|exact Hf].
Qed.

Lemma index_of_NoDup (l names : list string) (order : list nat) :
  NoDup names -> mapR (index_of l) names = Ok order -> NoDup order.
Proof.
  revert order. induction names as [|x names IH]; intros order Hnd H.
  - cbn in H. injection H as <-. constructor.
  - cbn in H. destruct (index_of l x) as [j|] eqn:Ej; [|discriminate].
    destruct (mapR (index_of l) names) as [js|] eqn:Ejs; [|discriminate].
    injection H as <-. inversion Hnd as [|? ? Hx Hnd']; subst.
    constructor; [|now apply IH].
    intros Hin. destruct (mapR_In _ _ _ _ Ejs Hin) as [y [Hy Hjy]].
    apply index_of_nth in Ej, Hjy. rewrite Ej in Hjy.
    injection Hjy as ->. contradiction.
Qed.

Lemma getitem_needs_length {A} (l : list A) (order : list nat)
  (r : list A) :
  NoDup order -> mapR (getitem l) order = Ok r ->
  (List.length order <= List.length l)%nat.
Proof.
  intros Hnd H.
  replace (List.length l) with (List.length (seq 0 (List.length l)))
    by apply length_seq.
  apply NoDup_incl_length; [exact Hnd|].
  intros j Hj. apply in_seq. split; [lia|]. cbn.
  assert (Hr : exists b, getitem l j = Ok b).
  { clear Hnd. revert r H. induction order as [|i order IH]; intros r H;
      [contradiction|].
    cbn in H. destruct (getitem l i) as [b|] eqn:Ei; [|discriminate].
    destruct (mapR (getitem l) order) as [bs|] eqn:Eb; [|discriminate].
    destruct Hj as [<-|Hj]; [eauto|]. exact (IH Hj bs eq_refl). }
  destruct Hr as [b Hb]. unfold getitem in Hb.
  destruct (nth_error l j) eqn:E; [|discriminate].
  apply nth_error_Some. congruence.
Qed.

Lemma getitem_raises {A} (l : list A) (i : nat) (e : exn) :
  getitem l i = Raise e -> e = IndexError.
Proof.
  unfold getitem. destruct (nth_error l i); [discriminate|].
  intros H. now injection H.
Qed.

Lemma mapR_getitem_raises {A} (l : list A) (order : list nat) (e : exn) :
  mapR (getitem l) order = Raise e -> e = IndexError.
Proof.
  intros H. destruct (mapR_raise _ _ _ H) as [i [_ Hi]].
  exact (getitem_raises _ _ _ Hi).
Qed.

Lemma reorder_point_raises (order : list nat) (p : JointTrajectoryPoint)
  (e : exn) :
  reorder_point order p = Raise e -> e = IndexError.
Proof.
  unfold reorder_point.
  destruct (mapR (getitem (positions p)) order) as [pos|e1] eqn:E1.
  2:{ cbn. intros H. injection H as <-.
      exact (mapR_getitem_raises _ _ _ E1). }
  cbn [rbind].
  destruct (is_empty (velocities p)).
  - cbn [rbind]. destruct (is_empty (accelerations p)); [discriminate|].
    destruct (mapR (getitem (accelerations p)) order) as [?|e3] eqn:E3;
      [discriminate|].
    cbn. intros H. injection H as <-.
    exact (mapR_getitem_raises _ _ _ E3).
  - destruct (mapR (getitem (velocities p)) order) as [vel|e2] eqn:E2.
    2:{ cbn. intros H. injection H as <-.
        exact (mapR_getitem_raises _ _ _ E2). }
    cbn [rbind]. destruct (is_empty (accelerations p)); [discriminate|].
    destruct (mapR (getitem (accelerations p)) order) as [?|e3] eqn:E3;
      [discriminate|].
    cbn. intros H. injection H as <-.
    exact (mapR_getitem_raises _ _ _ E3).
Qed.

Lemma reorder_with_known_names (tr : JointTrajectory) :
  same_name_set (joint_names tr) JOINT_NAMES = true ->
  exists order,
    mapR (index_of (joint_names tr)) JOINT_NAMES = Ok order
    /\ NoDup order /\ List.length order = 6%nat.
Proof.
  intros Hs. unfold same_name_set in Hs.
  apply andb_true_iff in Hs as [_ Hs]. rewrite forallb_forall in Hs.
  destruct (mapR (index_of (joint_names tr)) JOINT_NAMES) as [order|e]
    eqn:Eo.
  - exists order. split; [reflexivity|]. split.
    + exact (index_of_NoDup _ _ _ JOINT_NAMES_NoDup Eo).
    + now apply mapR_length in Eo.
  - exfalso. destruct (mapR_raise _ _ _ Eo) as [x [Hx Hr]].
    apply index_of_raises in Hr as [_ Hr].
    rewrite (Hs x Hx) in Hr. discriminate.
Qed.

(** X12.  The checks of [on_goal] do not look at the number of joints of a
    waypoint.  A goal that passes them and has a waypoint with fewer than
    six positions is neither accepted nor rejected: the reordering raises
    [IndexError] out of [on_goal], with the follower unchanged. *)
Theorem on_goal_short_waypoint_raises (mv : pyfloat) (gh : GoalHandle)
  (now : Q) (s : State) (p : JointTrajectoryPoint) :
  robot s = None ->
  same_name_set (joint_names (goal_trajectory gh)) JOINT_NAMES = true ->
  traj_is_finite (goal_trajectory gh) = true ->
  has_velocities (goal_trajectory gh) = true ->
  has_limited_velocities mv (goal_trajectory gh) = true ->
  In p (points (goal_trajectory gh)) ->
  (List.length (positions p) < 6)%nat ->
  on_goal mv gh now s = (Raised IndexError, s, [Log "on_goal"]).
Proof.
  intros Hr Hn Hf Hv Hl Hin Hshort.
  assert (Hre : reorder_traj_joints (goal_trajectory gh) JOINT_NAMES
                = Raise IndexError).
  { unfold reorder_traj_joints.
    destruct (reorder_with_known_names _ Hn) as [order [-> [Hnd Lo]]].
    cbn [rbind].
    destruct (mapR (reorder_point order) (points (goal_trajectory gh)))
      as [pts|e] eqn:Ep.
    - exfalso. apply In_nth_error in Hin as [k Hk].
      destruct (mapR_nth _ _ _ Ep k p Hk) as [p' [Hp' _]].
      unfold reorder_point in Hp'.
      destruct (mapR (getitem (positions p)) order) as [pos|] eqn:Epos;
        [|discriminate].
      pose proof (getitem_needs_length _ _ _ Hnd Epos). lia.
    - cbn. destruct (mapR_raise _ _ _ Ep) as [q [_ Hq]].
      now rewrite (reorder_point_raises _ _ _ Hq). }
  unfold on_goal. run_method. rewrite Hr, Hn, Hf, Hv, Hl. cbn [negb].
  rewrite Hre. reflexivity.
Qed.

Lemma on_goal_short_waypoint_raises_witness :
  on_goal MAX_VELOCITY goal_empty_waypoint 102 s_active
  = (Raised IndexError, s_active, [Log "on_goal"]).
Proof.
  apply (on_goal_short_waypoint_raises MAX_VELOCITY goal_empty_waypoint 102
           s_active (mkPoint [] [] [] [] 1000000000));
    try reflexivity.
  - now left.
  - cbn. lia.
Defined.

(** *** Rebinding the robot *)

(** X13.  After [set_robot], whatever the robot given, the follower
    accepts no goal: with a robot bound the goal is rejected, and with none
    the trajectory is unset and a goal that passes the checks raises
    [AttributeError]. *)
Theorem no_goal_accepted_after_set_robot (mv : pyfloat)
  (r : option Robot) (t0 now : Q) (s : State) (gh : GoalHandle) :
  (forall g,
      ~ In (SetAccepted g)
           (effects_of (on_goal mv gh now (state_of (set_robot r t0 s)))))
  /\ goal_handle (state_of (on_goal mv gh now (state_of (set_robot r t0 s))))
     = None.
Proof.
  assert (Hs : goal_handle (state_of (set_robot r t0 s)) = None
               /\ (robot (state_of (set_robot r t0 s)) <> None
                   \/ traj (state_of (set_robot r t0 s)) = None)).
  { unfold set_robot, init_traj_from_robot. run_method.
    destruct (goal_handle s) eqn:Eg, r; run_method; cbn; rewrite ?Eg;
      (split; [reflexivity|first [left; discriminate|right; reflexivity]]). }
  destruct Hs as [Hg Hrt].
  destruct (on_goal_cases mv gh now (state_of (set_robot r t0 s)))
    as [[_ [Hkeep Hno]]|H].
  - split; [exact Hno|]. destruct Hkeep as [-> | ->]; auto.
  - exfalso. destruct H as [tr [p [gt [Hr [_ [_ [Ht _]]]]]]].
    destruct Hrt as [Hrt|Hrt]; congruence.
Qed.

(** *** Goals and the robot *)

(** X14.  In every reachable state a goal is active only while no robot is
    bound, and then the follower has a trajectory that starts at time 0 and
    is made of joint vectors. *)
Theorem active_goal_means_unbound (mv : pyfloat) (s : State)
  (g : GoalHandle) :
  reachable mv s ->
  goal_handle s = Some g ->
  robot s = None
  /\ exists tr, traj s = Some tr /\ sample_safe tr.
Proof.
  intros Hreach Hg. split.
  - revert g Hg. induction Hreach as [r|s c Hreach IH]; intros g Hg.
    + discriminate Hg.
    + destruct c as [now|r now|gh now|gh now|now]; cbn [run_call] in *.
      * cbn in Hg |- *. exact (IH g Hg).
      * exfalso. revert Hg. unfold set_robot, init_traj_from_robot.
        run_method. destruct (goal_handle s) eqn:Eg, r; run_method; cbn;
          rewrite ?Eg; discriminate.
      * destruct (on_goal_cases mv gh now s) as [[_ [Hkeep _]]|H].
        -- assert (Hrob : robot (state_of (on_goal mv gh now s)) = robot s).
           { clear. on_goal_paths mv gh now s; cbn; congruence. }
           rewrite Hrob. destruct Hkeep as [Hk|Hk]; [|congruence].
           rewrite Hk in Hg. exact (IH g Hg).
        -- destruct H as [tr [p [gt [Hr _]]]].
           assert (Hrob : robot (state_of (on_goal mv gh now s)) = robot s).
           { clear. on_goal_paths mv gh now s; cbn; congruence. }
           now rewrite Hrob.
      * destruct (same_handle gh (goal_handle s)) eqn:Hsame.
        -- exfalso.
           destruct (reachable_ok mv s Hreach) as [Hsafe Hgoal].
           destruct (same_handle_active _ _ Hsame) as [g0 [Eg _]].
           destruct (traj s) as [tr|] eqn:Et;
             [|apply Hgoal; congruence].
           destruct (sample_traj_safe tr (now - traj_t0 s)
                       (Hsafe tr eq_refl)) as [p0 [E0 _]].
           destruct (sample_traj_safe tr (now - traj_t0 s + STOP_DURATION)
                       (Hsafe tr eq_refl)) as [p1 [E1 _]].
           rewrite (on_cancel_active gh now s tr p0 p1 Hsame Et E0 E1) in Hg.
           discriminate Hg.
        -- rewrite (on_cancel_other gh now s Hsame) in Hg |- *.
           cbn in Hg |- *. exact (IH g Hg).
      * destruct (update_never_sends now s) as [_ [_ [_ Hkeep]]].
        assert (Hrob : robot (state_of (_update now s)) = robot s).
        { clear. unfold _update. run_method.
          destruct (robot s) eqn:Er; [cbn; congruence|].
          destruct (traj s) as [tr|]; [|cbn; congruence].
          destruct (getlast (points tr)) as [lastp|]; run_method;
            [|cbn; congruence].
          destruct (Qle_bool _ _); run_method.
          - destruct (sample_traj tr _); cbn; congruence.
          - destruct (last_point_sent s); cbn [negb].
            + destruct (goal_handle s); run_method; cbn; congruence.
            + rewrite getattr_position. cbn. congruence. }
        rewrite Hrob. destruct Hkeep as [Hk|Hk]; [|congruence].
        rewrite Hk in Hg. exact (IH g Hg).
  - destruct (reachable_ok mv s Hreach) as [Hsafe Hgoal].
    destruct (traj s) as [tr|] eqn:Et.
    + exists tr. split; [reflexivity|]. now apply Hsafe.
    + exfalso. apply Hgoal; congruence.
Qed.

Lemma active_goal_means_unbound_witness :
  robot s_active = None
  /\ exists tr, traj s_active = Some tr /\ sample_safe tr.
Proof.
  apply (active_goal_means_unbound MAX_VELOCITY s_active
           (mkGoalHandle 1
              (mkTraj JOINT_NAMES
                 [flat_point 0 0 0; flat_point 1 0 2000000000]))).
  - exact s_active_reachable.
  - vm_compute. reflexivity.
Defined.

(** *** After a cancellation *)

(** X15.  After the active goal of a reachable state is canceled, the
    trajectory left behind brings the setpoint to rest: sampled half a
    second or more after the cancellation it is a waypoint with six zero
    velocities and six zero accelerations. *)
Theorem canceled_goal_comes_to_rest (mv : pyfloat) (gh : GoalHandle)
  (now : Q) (s : State) (t : Q) :
  reachable mv s ->
  same_handle gh (goal_handle s) = true ->
  1 # 2 <= t ->
  exists w,
    sample_active (traj (state_of (on_cancel gh now s))) t = Ok w
    /\ velocities w = repeat (Fin 0) 6
    /\ accelerations w = repeat (Fin 0) 6
    /\ time_from_start w = 500000000%Z.
Proof.
  intros Hreach Hsame Ht.
  destruct (reachable_ok mv s Hreach) as [Hsafe Hgoal].
  destruct (same_handle_active _ _ Hsame) as [g [Eg _]].
  destruct (traj s) as [tr|] eqn:Et.
  2:{ exfalso. apply Hgoal; congruence. }
  destruct (sample_traj_safe tr (now - traj_t0 s) (Hsafe tr eq_refl))
    as [p0 [E0 _]].
  destruct (sample_traj_safe tr (now - traj_t0 s + STOP_DURATION)
              (Hsafe tr eq_refl)) as [p1 [E1 _]].
  rewrite (on_cancel_active gh now s tr p0 p1 Hsame Et E0 E1).
  unfold state_of. cbn [fst snd traj sample_active].
  unfold sample_traj. cbn [points getlast last rbind time_from_start].
  destruct (Qle_bool t 0) eqn:E.
  { exfalso. apply Qle_bool_iff in E.
    assert (H : 1 # 2 <= 0) by (eapply Qle_trans; eassumption).
    revert H. vm_compute. intros H. now apply H. }
  replace (Qle_bool (to_sec 500000000) t) with true.
  - eexists. split; [reflexivity|]. cbn. repeat split; reflexivity.
  - symmetry. apply Qle_bool_iff.
    apply Qle_trans with (1 # 2); [|exact Ht].
    vm_compute. discriminate.
Qed.

Lemma canceled_goal_comes_to_rest_witness :
  exists w,
    sample_active (traj (state_of (on_cancel goal_A 102 s_active))) (3 # 4)
    = Ok w
    /\ velocities w = repeat (Fin 0) 6
    /\ accelerations w = repeat (Fin 0) 6
    /\ time_from_start w = 500000000%Z.
Proof.
  apply (canceled_goal_comes_to_rest MAX_VELOCITY goal_A 102 s_active
           (3 # 4)).
  - exact s_active_reachable.
  - vm_compute. reflexivity.
  - vm_compute. discriminate.
Defined.

(** *** The timer tick *)

(** X16.  A timer tick never reports a goal as succeeded, never commands
    the arm and never logs: in every state, bound to a robot or not, its
    only effects are the published joint state and the printed setpoint,
    and the only change it can make to the follower is to mark the last
    point as not sent. *)
Theorem update_only_publishes (now : Q) (s : State) :
  (state_of (_update now s) = s
   \/ state_of (_update now s) = with_last_point_sent s false)
  /\ forallb is_telemetry (effects_of (_update now s)) = true.
Proof.
  unfold _update. run_method.
  destruct (robot s) as [rb|] eqn:Er; [cbn; auto|].
  destruct (traj s) as [tr|] eqn:Et; [|cbn; auto].
  destruct (getlast (points tr)) as [lastp|e] eqn:El; run_method;
    [|cbn; auto].
  destruct (Qle_bool (now - traj_t0 s) (to_sec (time_from_start lastp))).
  - run_method. cbn.
    destruct (sample_traj tr (now - traj_t0 s)); cbn; auto.
  - destruct (last_point_sent s) eqn:Els; cbn [negb].
    + destruct (goal_handle s) as [g|] eqn:Eg; run_method; cbn; auto.
    + rewrite getattr_position. run_method. cbn. auto.
Qed.

(** X17.  In a reachable state with no robot bound, a tick no later than
    the end of the trajectory returns: it marks the last point as not sent
    and publishes one joint state, the canonical joint names with the
    positions, velocities and effort of the trajectory's sample at
    [now - traj_t0]. *)
Theorem update_publishes_setpoint (mv : pyfloat) (now : Q) (s : State)
  (tr : JointTrajectory) (lastp : JointTrajectoryPoint) :
  reachable mv s ->
  robot s = None ->
  traj s = Some tr ->
  getlast (points tr) = Ok lastp ->
  now - traj_t0 s <= to_sec (time_from_start lastp) ->
  exists w,
    sample_traj tr (now - traj_t0 s) = Ok w
    /\ _update now s
       = (Normal tt, with_last_point_sent s false,
          [PublishJointState JOINT_NAMES (positions w) (velocities w)
             (effort w);
           PrintLine (nsecs (time_from_start w)) (positions w)]).
Proof.
  intros Hreach Hr Ht Hl Hle.
  destruct (reachable_ok mv s Hreach) as [Hsafe _].
  destruct (sample_traj_safe tr (now - traj_t0 s) (Hsafe tr Ht))
    as [w [Ew _]].
  exists w. split; [exact Ew|].
  unfold _update. run_method. rewrite Hr, Ht, Hl. run_method.
  apply Qle_bool_iff in Hle. rewrite Hle. run_method. cbn.
  rewrite Ew. reflexivity.
Qed.

Lemma update_publishes_setpoint_witness :
  exists w,
    sample_traj
      (mkTraj JOINT_NAMES [flat_point 0 0 0; flat_point 1 0 2000000000])
      (102 - traj_t0 s_active) = Ok w
    /\ _update 102 s_active
       = (Normal tt, with_last_point_sent s_active false,
          [PublishJointState JOINT_NAMES (positions w) (velocities w)
             (effort w);
           PrintLine (nsecs (time_from_start w)) (positions w)]).
Proof.
  apply (update_publishes_setpoint MAX_VELOCITY 102 s_active
           (mkTraj JOINT_NAMES [flat_point 0 0 0; flat_point 1 0 2000000000])
           (flat_point 1 0 2000000000)).
  - exact s_active_reachable.
  - reflexivity.
  - reflexivity.
  - reflexivity.
  - vm_compute. discriminate.
Defined.



End FollowerFacts.

(* ------------------------------------------------------------------ *)
(** ** Further properties of the connection *)

Module ConnectionFacts.
Import Connection ConnectionRun ConnectionData ConnectionProofs.


Lemma try_extract_whole_frame (f rest : list byte) :
  whole_frame f -> try_extract (f ++ rest) = Ok (Some (f, rest)).
Proof.
  intros [H48 [ty Hu]]. unfold try_extract.
  rewrite (unpack_IB_app _ _ _ _ Hu), length_app. cbn [rbind].
  destruct (Nat.leb_spec 48 (List.length f + List.length rest)); [|lia].
  destruct (N.leb_spec (N.of_nat (List.length f))
              (N.of_nat (List.length f + List.length rest))); [|lia].
  now rewrite Nat2N.id, firstn_length_app, skipn_length_app.
Qed.



(** *** A length field of zero *)

(** X20.  A buffer of at least 48 bytes whose length field is zero has an
    empty packet cut off it and stays as it is.  As the module stands the
    read loop still ends there: [__on_packet] raises [NameError] on the
    empty packet, with the buffer and the connection unchanged. *)
Theorem drain_ends_on_zero_length (rostime : Q) (b4 : byte)
  (rest : list byte) (fuel : nat) (s : State) :
  (43 <= List.length rest)%nat ->
  buf s = x00 :: x00 :: x00 :: x00 :: b4 :: rest ->
  try_extract (buf s) = Ok (Some ([], buf s))
  /\ drain driver_globals (S fuel) rostime s
     = Some (Raised (NameError "RobotState"), s, []).
Proof.
  intros Hlen Hb.
  assert (Hx : try_extract (buf s) = Ok (Some ([], buf s))).
  { rewrite Hb. unfold try_extract. cbn [List.length].
    destruct (Nat.leb_spec 48 (S (S (S (S (S (List.length rest)))))));
      [|lia].
    reflexivity. }
  split; [exact Hx|].
  cbn [drain]. rewrite Hx, on_packet_name_error.
  destruct s; reflexivity.
Qed.

Lemma drain_ends_on_zero_length_witness :
  try_extract (buf (with_buffer zero_length_buffer))
  = Ok (Some ([], buf (with_buffer zero_length_buffer)))
  /\ drain driver_globals 1 0 (with_buffer zero_length_buffer)
     = Some (Raised (NameError "RobotState"),
             with_buffer zero_length_buffer, []).
Proof.
  apply (drain_ends_on_zero_length 0 x00 (repeat x00 43) 0
           (with_buffer zero_length_buffer)).
  - cbn. lia.
  - reflexivity.
Defined.

(** *** The loop only consumes from the front *)

(** X21.  Whenever the read loop ends, by running out of complete packets
    or by an exception, the buffer it leaves is a suffix of the buffer it
    started with: bytes are only ever taken from the front. *)
Theorem drain_leaves_a_suffix (g : Globals) (rostime : Q) (fuel : nat) :
  forall (s : State) (r : outcome unit * State * list Effect),
  drain g fuel rostime s = Some r ->
  exists consumed, buf s = consumed ++ buf (state_of r).
Proof.
  induction fuel as [|fuel IH]; intros s r H; [discriminate|].
  cbn [drain] in H.
  destruct (try_extract (buf s)) as [[[packet rest]|]|x] eqn:Hx.
  - destruct (try_extract_some _ _ _ Hx) as [n [ty [_ [_ [_ [_ [_ Hsplit]]]]]]].
    pose proof (on_packet_frame g packet rostime (with_buf s rest))
      as Hbuf.
    destruct (on_packet g packet rostime (with_buf s rest))
      as [[[[]|e] s1] e1].
    + unfold state_of in Hbuf. cbn [fst snd buf with_buf] in Hbuf.
      destruct (drain g fuel rostime s1) as [[[o2 s2] e2]|] eqn:Hd;
        [|discriminate].
      injection H as <-.
      destruct (IH s1 _ Hd) as [c Hc].
      unfold state_of in *. cbn [fst snd] in *.
      exists (packet ++ c). rewrite <- app_assoc, <- Hc, Hbuf. exact Hsplit.
    + injection H as <-. unfold state_of in *. cbn [fst snd] in *.
      cbn [buf with_buf] in Hbuf. exists packet. now rewrite Hbuf.
  - injection H as <-. exists []. reflexivity.
  - injection H as <-. exists []. reflexivity.
Qed.

Lemma drain_leaves_a_suffix_witness :
  exists consumed,
    buf (with_buf connected (frame60 ++ trailing10))
    = consumed
      ++ buf (state_of
                (on_packet driver_globals frame60 0
                   (with_buf connected trailing10))).
Proof.
  apply (drain_leaves_a_suffix driver_globals 0 2
           (with_buf connected (frame60 ++ trailing10))
           (on_packet driver_globals frame60 0
              (with_buf connected trailing10))).
  vm_compute. reflexivity.
Defined.

(** *** The first whole frame *)

(** X22.  As the module stands, the first whole frame at the front of the
    buffer ends the read thread: the frame is cut off, [__on_packet] raises
    [NameError] at its first statement, and nothing else happens.  No state
    is recorded in [last_state], nothing is logged or published, the
    connection state is kept, the thread is not marked as stopped and the
    bytes after the frame stay in the buffer. *)
Theorem drain_dies_on_first_frame (rostime : Q) (fuel : nat) (s : State)
  (frame more : list byte) :
  whole_frame frame ->
  buf s = frame ++ more ->
  drain driver_globals (S fuel) rostime s
  = Some (Raised (NameError "RobotState"), with_buf s more, [])
  /\ last_state (with_buf s more) = last_state s
  /\ robot_state (with_buf s more) = robot_state s
  /\ keep_running (with_buf s more) = keep_running s.
Proof.
  intros Hf Hb. split; [|repeat split].
  cbn [drain].
  rewrite Hb, (try_extract_whole_frame frame more Hf), on_packet_name_error.
  reflexivity.
Qed.

Lemma drain_dies_on_first_frame_witness :
  drain driver_globals 1 0 (with_buffer (pkt_ready ++ pkt_running))
  = Some (Raised (NameError "RobotState"),
          with_buf (with_buffer (pkt_ready ++ pkt_running)) pkt_running, [])
  /\ last_state (with_buf (with_buffer (pkt_ready ++ pkt_running)) pkt_running)
     = last_state (with_buffer (pkt_ready ++ pkt_running))
  /\ robot_state
       (with_buf (with_buffer (pkt_ready ++ pkt_running)) pkt_running)
     = robot_state (with_buffer (pkt_ready ++ pkt_running))
  /\ keep_running
       (with_buf (with_buffer (pkt_ready ++ pkt_running)) pkt_running)
     = keep_running (with_buffer (pkt_ready ++ pkt_running)).
Proof.
  apply (drain_dies_on_first_frame 0 0
           (with_buffer (pkt_ready ++ pkt_running)) pkt_ready pkt_running).
  - split; [cbn; lia|]. exists 16%N. reflexivity.
  - reflexivity.
Defined.

(** *** Rate limiting of the warning *)



End ConnectionFacts.

(* ------------------------------------------------------------------ *)
(** ** Programming the controller *)

Module ProgrammingFacts.
Import Connection ConnectionRun ConnectionData ConnectionProofs Programming.

(** X26.  [send_program] sends nothing but the program of the device, and
    sends it only when programming is not prevented and the connection is
    ready to program; it then returns with the connection [EXECUTING].
    When nothing is sent the device is left as it was, and on a
    connection that is not ready the call fails its assertion without any
    effect. *)
Theorem send_program_only_when_ready (prevent send_ok : bool)
  (d d' : Device) (f : option failure) (e : list Effect) :
  send_program prevent send_ok d = (f, d', e) ->
  (forall data, In (Sendall data) e ->
     data = program d /\ prevent = false /\ ready_to_program d = true
     /\ f = None /\ robot_state (conn d') = EXECUTING)
  /\ ((forall data, ~ In (Sendall data) e) -> d' = d)
  /\ (prevent = false -> ready_to_program d = false ->
      f = Some AssertionFailed /\ d' = d /\ e = []).
Proof.
  unfold send_program, sendall. intros H.
  destruct prevent.
  - injection H as <- <- <-. split; [|split].
    + intros data [Hin|[]]. discriminate Hin.
    + reflexivity.
    + discriminate.
  - destruct (ready_to_program d) eqn:Hr; cbn [negb] in H.
    + destruct (sock d); [destruct send_ok|]; injection H as <- <- <-.
      * split; [|split].
        -- intros data [Hin|[Hin|[]]]; [discriminate Hin|].
           injection Hin as <-. repeat split.
        -- intros Hno. exfalso. apply (Hno (program d)). cbn. auto.
        -- discriminate.
      * split; [|split].
        -- intros data [Hin|[]]. discriminate Hin.
        -- reflexivity.
        -- discriminate.
      * split; [|split].
        -- intros data [Hin|[]]. discriminate Hin.
        -- reflexivity.
        -- discriminate.
    + injection H as <- <- <-. split; [|split].
      * intros data [].
      * reflexivity.
      * intros _ _. repeat split.
Qed.

Lemma send_program_only_when_ready_witness :
  program a_device
  = program
      (with_conn a_device (with_robot_state connected READY_TO_PROGRAM))
  /\ false = false
  /\ ready_to_program
       (with_conn a_device (with_robot_state connected READY_TO_PROGRAM))
     = true
  /\ @None failure = None
  /\ robot_state
       (conn (with_conn a_device (with_robot_state connected EXECUTING)))
     = EXECUTING.
Proof.
  apply (proj1 (send_program_only_when_ready false true
                  (with_conn a_device
                     (with_robot_state connected READY_TO_PROGRAM))
                  (with_conn a_device (with_robot_state connected EXECUTING))
                  None
                  [Info "Programming the robot"; Sendall (program a_device)]
                  eq_refl)
           (program a_device)).
  cbn. auto.
Defined.

(** X27.  [send_reset_program] makes a device with a socket ready to
    program whatever its connection state was, also when no packet has
    reported a mode yet: the reset program is sent, the state becomes
    [READY_TO_PROGRAM], and [send_program] is then let through.  Without a
    socket it fails and changes nothing. *)
Theorem reset_program_makes_ready (d : Device) :
  (sock d = true ->
   exists d1,
     send_reset_program true d = (None, d1, [Sendall RESET_PROGRAM])
     /\ robot_state (conn d1) = READY_TO_PROGRAM
     /\ ready_to_program d1 = true
     /\ exists d2,
          send_program false true d1
          = (None, d2, [Info "Programming the robot"; Sendall (program d)])
          /\ robot_state (conn d2) = EXECUTING)
  /\ (sock d = false ->
      forall send_ok,
        send_reset_program send_ok d = (Some SocketIsNone, d, [])).
Proof.
  split.
  - intros Hsock.
    exists (with_conn d (with_robot_state (conn d) READY_TO_PROGRAM)).
    unfold send_reset_program, send_program, sendall, ready_to_program.
    rewrite Hsock. cbn [conn with_conn robot_state with_robot_state sock
                        negb program].
    rewrite Hsock. repeat split.
    eexists. split; reflexivity.
  - intros Hsock send_ok. unfold send_reset_program, sendall.
    now rewrite Hsock.
Qed.

Lemma reset_program_makes_ready_witness :
  exists d1,
    send_reset_program true a_device = (None, d1, [Sendall RESET_PROGRAM])
    /\ robot_state (conn d1) = READY_TO_PROGRAM
    /\ ready_to_program d1 = true
    /\ exists d2,
         send_program false true d1
         = (None, d2,
            [Info "Programming the robot"; Sendall (program a_device)])
         /\ robot_state (conn d2) = EXECUTING.
Proof.
  apply (proj1 (reset_program_makes_ready a_device)). reflexivity.
Defined.

End ProgrammingFacts.
